(** * MCS controller for AI2-THOR: a shallow embedding and its properties

    The development follows
    [python_api/machine_common_sense/mcs_controller_ai2thor.py]
    (class [MCS_Controller_AI2THOR]).  Python values are embedded as a
    small universe of dynamically typed values, dictionaries with
    arbitrary keys as finite maps over strings, exceptions as an error
    result, and the mutable controller object together with the
    outside world (terminal, files, the simulator session) as an
    explicit state that every method threads.

    Numbers: Python's [int] and [float] are both embedded as exact
    rationals.  The properties below are about which value or which
    expression the controller selects, never about rounding. *)

From Stdlib Require Import QArith Lqa OrderedTypeEx.
From stdpp Require Import gmap strings list fin_maps pretty sorting.

#[local] Set Warnings "-register-all".
#[local] Open Scope Q_scope.
#[local] Open Scope string_scope.

(** ** Python values *)

Inductive pyval : Type :=
  | PNone
  | PBool (b : bool)
  | PNum (q : Q)
  | PStr (s : string)
  | PList (l : list pyval)
  | PDict (d : gmap string pyval).

(** The exceptions the embedded code can meet. *)
Inductive exn : Type :=
  | KeyError
  | TypeError
  | IndexError
  | AttributeError
  | BackendError.

Inductive outcome (A : Type) : Type :=
  | Return (a : A)
  | Raise (e : exn).
Arguments Return {A} a.
Arguments Raise {A} e.

#[global] Instance outcome_ret : MRet outcome := fun _ a => Return a.
#[global] Instance outcome_bind : MBind outcome := fun _ _ f m =>
  match m with
  | Return a => f a
  | Raise e => Raise e
  end.

Definition raised {A} (m : outcome A) : bool :=
  match m with Return _ => false | Raise _ => true end.

(** ** The Python operations the controller applies to such values *)

(** [key in v] for a string [key]. *)
Definition py_contains (key : string) (v : pyval) : outcome bool :=
  match v with
  | PDict d => Return (bool_decide (is_Some (d !! key)))
  | PList l =>
      Return (existsb (fun x => match x with
                                | PStr s => String.eqb s key
                                | _ => false
                                end) l)
  | PStr s => Return (bool_decide (is_Some (String.index 0 key s)))
  | _ => Raise TypeError
  end.

(** [v[key]] for a string [key]. *)
Definition py_getitem (v : pyval) (key : string) : outcome pyval :=
  match v with
  | PDict d => match d !! key with
               | Some x => Return x
               | None => Raise KeyError
               end
  | _ => Raise TypeError
  end.

(** [len(v)]. *)
Definition py_len (v : pyval) : outcome nat :=
  match v with
  | PList l => Return (length l)
  | PStr s => Return (String.length s)
  | PDict d => Return (size d)
  | _ => Raise TypeError
  end.

(** [v[i]] for a step index [i] (never negative). *)
Definition py_index (v : pyval) (i : nat) : outcome pyval :=
  match v with
  | PList l => match l !! i with
               | Some x => Return x
               | None => Raise IndexError
               end
  | PStr s => match String.get i s with
              | Some c => Return (PStr (String c EmptyString))
              | None => Raise IndexError
              end
  | PDict _ => Raise KeyError
  | _ => Raise TypeError
  end.

(** Truth value of [v] in a condition. *)
Definition py_truthy (v : pyval) : bool :=
  match v with
  | PNone => false
  | PBool b => b
  | PNum q => negb (Qeq_bool q 0)
  | PStr s => negb (String.eqb s "")
  | PList l => negb (bool_decide (length l = 0%nat))
  | PDict d => negb (bool_decide (size d = 0%nat))
  end.

Definition Qlt_bool (a b : Q) : bool := negb (Qle_bool b a).

(** [v < n] for the step counter [n]. *)
Definition py_lt_nat (v : pyval) (n : nat) : outcome bool :=
  match v with
  | PNum q => Return (Qlt_bool q (inject_Z (Z.of_nat n)))
  | PBool b => Return (Qlt_bool (if b then 1 else 0) (inject_Z (Z.of_nat n)))
  | _ => Raise TypeError
  end.

(** [kwargs.get(key, default)]. *)
Definition kwargs_get (kwargs : gmap string pyval) (key : string)
    (default : pyval) : pyval :=
  match kwargs !! key with
  | Some v => v
  | None => default
  end.

(** ** Class constants *)

Definition GRID_SIZE : Q := 1 # 10.
Definition MAX_MOVE_DISTANCE : Q := 1 # 2.
Definition MAX_BABY_FORCE : Q := 25.
Definition MAX_REACH_DISTANCE : Q := 1.

Definition DEFAULT_HORIZON : Q := 0.
Definition DEFAULT_ROTATION : Q := 0.
Definition DEFAULT_FORCE : Q := 1 # 2.
Definition DEFAULT_AMOUNT : Q := 1 # 2.
Definition DEFAULT_DIRECTION : Q := 0.
Definition DEFAULT_OBJECT_MOVE_AMOUNT : Q := 1.

Definition MAX_ROTATION : Q := 360.
Definition MIN_ROTATION : Q := -360.
Definition MAX_HORIZON : Q := 180.
Definition MIN_HORIZON : Q := -180.

Definition MAX_FORCE : Q := 1.
Definition MIN_FORCE : Q := 0.
Definition MAX_AMOUNT : Q := 1.
Definition MIN_AMOUNT : Q := 0.

Definition ROTATION_KEY := "rotation".
Definition HORIZON_KEY := "horizon".
Definition FORCE_KEY := "force".
Definition AMOUNT_KEY := "amount".
Definition OBJECT_DIRECTION_X_KEY := "objectDirectionX".
Definition OBJECT_DIRECTION_Y_KEY := "objectDirectionY".
Definition OBJECT_DIRECTION_Z_KEY := "objectDirectionZ".
Definition RECEPTACLE_DIRECTION_X := "receptacleObjectDirectionX".
Definition RECEPTACLE_DIRECTION_Y := "receptacleObjectDirectionY".
Definition RECEPTACLE_DIRECTION_Z := "receptacleObjectDirectionZ".

Definition FORCE_ACTIONS : list string :=
  ["ThrowObject"; "PushObject"; "PullObject"].
Definition OBJECT_MOVE_ACTIONS : list string :=
  ["CloseObject"; "OpenObject"].
Definition MOVE_ACTIONS : list string :=
  ["MoveAhead"; "MoveLeft"; "MoveRight"; "MoveBack"].

(** [action in actions] on a list of strings. *)
Definition action_in (action : string) (actions : list string) : bool :=
  bool_decide (action ∈ actions).

(** ** MCS_Util (validation helpers) *)

(** Modelled from the spec: [MCS_Util.is_number] (mcs_util.py is not
    among the sources).  "Each of ... is independently type-checked: if
    not numeric, replaced with its documented default": the check holds
    exactly of the numbers. *)
Definition is_number (value : pyval) (label : string) : bool :=
  match value with
  | PNum _ => true
  | _ => false
  end.

(** Modelled from the spec: [MCS_Util.is_in_range] (mcs_util.py is not
    among the sources).  "Out-of-range values are replaced by default
    (clamp-to-default, not clamp-to-boundary)": a value within
    [min_value, max_value] is returned as it is, any other is replaced
    by [default_value]. *)
Definition is_in_range (value min_value max_value default_value : Q)
    (label : string) : Q :=
  if Qlt_bool max_value value || Qlt_bool value min_value
  then default_value
  else value.

(** The number held by a value that passed [is_number]. *)
Definition number_of (value : pyval) : Q :=
  match value with
  | PNum q => q
  | _ => 0
  end.

(** ** Validation and conversion of the step parameters *)

(** [{'y': rotation}] *)
Record rotation_vector : Type := { rot_y : Q }.

(** [{'x': ..., 'y': ..., 'z': ...}] *)
Record direction_vector : Type := { dir_x : Q; dir_y : Q; dir_z : Q }.

(** The dictionary [validate_and_convert_params] returns. *)
Record step_params : Type := {
  objectId : pyval;
  receptacleObjectId : pyval;
  rotation : rotation_vector;
  horizon : Q;
  moveMagnitude : Q;
  objectDirection : direction_vector;
  receptacleObjectDirection : direction_vector
}.

(** The local variables of [validate_and_convert_params] once the type
    checks and the range checks are done (source lines 141 to 194). *)
Record normalized : Type := {
  n_rotation : Q;
  n_horizon : Q;
  n_amount : Q;
  n_force : Q;
  n_objectDirection : direction_vector;
  n_receptacleObjectDirection : direction_vector
}.

Definition normalize_params (action : string) (kwargs : gmap string pyval)
    : normalized :=
  let rotation := kwargs_get kwargs ROTATION_KEY (PNum DEFAULT_ROTATION) in
  let horizon := kwargs_get kwargs HORIZON_KEY (PNum DEFAULT_HORIZON) in
  let amount := kwargs_get kwargs AMOUNT_KEY (PNum DEFAULT_AMOUNT) in
  let force := kwargs_get kwargs FORCE_KEY (PNum DEFAULT_FORCE) in
  let objectDirectionX :=
    kwargs_get kwargs OBJECT_DIRECTION_X_KEY (PNum DEFAULT_DIRECTION) in
  let objectDirectionY :=
    kwargs_get kwargs OBJECT_DIRECTION_Y_KEY (PNum DEFAULT_DIRECTION) in
  let objectDirectionZ :=
    kwargs_get kwargs OBJECT_DIRECTION_Z_KEY (PNum DEFAULT_DIRECTION) in
  let receptacleObjectDirectionX :=
    kwargs_get kwargs RECEPTACLE_DIRECTION_X (PNum DEFAULT_DIRECTION) in
  let receptacleObjectDirectionY :=
    kwargs_get kwargs RECEPTACLE_DIRECTION_Y (PNum DEFAULT_DIRECTION) in
  let receptacleObjectDirectionZ :=
    kwargs_get kwargs RECEPTACLE_DIRECTION_Z (PNum DEFAULT_DIRECTION) in
  (* Check params that should be numbers *)
  let rotation :=
    if negb (is_number rotation ROTATION_KEY) then DEFAULT_ROTATION
    else number_of rotation in
  let horizon :=
    if negb (is_number horizon HORIZON_KEY) then DEFAULT_HORIZON
    else number_of horizon in
  let amount :=
    if negb (is_number amount AMOUNT_KEY) then
      if action_in action OBJECT_MOVE_ACTIONS
      then DEFAULT_OBJECT_MOVE_AMOUNT
      else DEFAULT_AMOUNT
    else number_of amount in
  let force :=
    if negb (is_number force FORCE_KEY) then DEFAULT_FORCE
    else number_of force in
  (* Check object directions are numbers *)
  let objectDirectionX :=
    if negb (is_number objectDirectionX OBJECT_DIRECTION_X_KEY)
    then DEFAULT_DIRECTION else number_of objectDirectionX in
  let objectDirectionY :=
    if negb (is_number objectDirectionY OBJECT_DIRECTION_Y_KEY)
    then DEFAULT_DIRECTION else number_of objectDirectionY in
  let objectDirectionZ :=
    if negb (is_number objectDirectionZ OBJECT_DIRECTION_Z_KEY)
    then DEFAULT_DIRECTION else number_of objectDirectionZ in
  (* Check receptacle directions are numbers *)
  let receptacleObjectDirectionX :=
    if negb (is_number receptacleObjectDirectionX RECEPTACLE_DIRECTION_X)
    then DEFAULT_DIRECTION else number_of receptacleObjectDirectionX in
  let receptacleObjectDirectionY :=
    if negb (is_number receptacleObjectDirectionY RECEPTACLE_DIRECTION_Y)
    then DEFAULT_DIRECTION else number_of receptacleObjectDirectionY in
  let receptacleObjectDirectionZ :=
    if negb (is_number receptacleObjectDirectionZ RECEPTACLE_DIRECTION_Z)
    then DEFAULT_DIRECTION else number_of receptacleObjectDirectionZ in
  (* Check that params that should fall in a range are in that range *)
  let horizon :=
    is_in_range horizon MIN_HORIZON MAX_HORIZON DEFAULT_HORIZON HORIZON_KEY in
  let amount :=
    is_in_range amount MIN_AMOUNT MAX_AMOUNT DEFAULT_AMOUNT AMOUNT_KEY in
  let force :=
    is_in_range force MIN_FORCE MAX_FORCE DEFAULT_FORCE FORCE_KEY in
  {| n_rotation := rotation;
     n_horizon := horizon;
     n_amount := amount;
     n_force := force;
     n_objectDirection :=
       {| dir_x := objectDirectionX;
          dir_y := objectDirectionY;
          dir_z := objectDirectionZ |};
     n_receptacleObjectDirection :=
       {| dir_x := receptacleObjectDirectionX;
          dir_y := receptacleObjectDirectionY;
          dir_z := receptacleObjectDirectionZ |} |}.

(** [noise k] stands for the value of the [k]-th call of
    [self.generate_noise()] in this invocation; it is consulted only
    when [enable_noise] is set. *)
Definition validate_and_convert_params (enable_noise : bool)
    (noise : nat -> Q) (action : string) (kwargs : gmap string pyval)
    : step_params :=
  let moveMagnitude := MAX_MOVE_DISTANCE in
  let locals := normalize_params action kwargs in
  let rotation := n_rotation locals in
  let horizon := n_horizon locals in
  let amount := n_amount locals in
  let force := n_force locals in
  (* Set the Move Magnitude to the appropriate amount based on the action *)
  let moveMagnitude :=
    if action_in action FORCE_ACTIONS then force * MAX_BABY_FORCE
    else moveMagnitude in
  let moveMagnitude :=
    if action_in action OBJECT_MOVE_ACTIONS then amount
    else moveMagnitude in
  let moveMagnitude :=
    if action_in action MOVE_ACTIONS then amount * MAX_MOVE_DISTANCE
    else moveMagnitude in
  (* Add in noise if noise is enable *)
  let rotation :=
    if enable_noise then rotation * (1 + noise 0%nat) else rotation in
  let horizon :=
    if enable_noise then horizon * (1 + noise 1%nat) else horizon in
  let moveMagnitude :=
    if enable_noise then moveMagnitude * (1 + noise 2%nat)
    else moveMagnitude in
  let rotation_vector := {| rot_y := rotation |} in
  let object_vector := n_objectDirection locals in
  let receptacle_vector := n_receptacleObjectDirection locals in
  {| objectId := kwargs_get kwargs "objectId" PNone;
     receptacleObjectId := kwargs_get kwargs "receptacleObjectId" PNone;
     rotation := rotation_vector;
     horizon := horizon;
     moveMagnitude := moveMagnitude;
     objectDirection := object_vector;
     receptacleObjectDirection := receptacle_vector |}.

(** ** Goals *)

(** Modelled from the spec: the [MCS_Goal] record (mcs_goal.py is not
    among the sources): "action_list (per-step whitelist of permitted
    actions, optional), info_list, task_list, type_list, metadata
    (free-form), last_step (optional hard step ceiling)".  The fields
    hold the values the constructor is given. *)
Record MCS_Goal : Type := {
  goal_action_list : pyval;
  goal_info_list : pyval;
  goal_last_step : pyval;
  goal_task_list : pyval;
  goal_type_list : pyval;
  goal_metadata : pyval
}.

(** [(goal_config[key] if gate in goal_config else default)] *)
Definition config_field (goal_config : pyval) (gate key : string)
    (default : pyval) : outcome pyval :=
  present ← py_contains gate goal_config;
  if present : bool then py_getitem goal_config key else Return default.

Definition retrieve_goal (current_scene : pyval) : outcome MCS_Goal :=
  has_goal ← py_contains "goal" current_scene;
  goal_config ← (if has_goal : bool then py_getitem current_scene "goal"
                 else Return (PDict ∅));
  action_list ← config_field goal_config "action_list" "action_list" PNone;
  info_list ← config_field goal_config "type_list" "info_list" (PList []);
  last_step ← config_field goal_config "last_step" "last_step" PNone;
  task_list ← config_field goal_config "type_list" "task_list" (PList []);
  type_list ← config_field goal_config "type_list" "type_list" (PList []);
  metadata ← config_field goal_config "metadata" "metadata" (PDict ∅);
  Return {| goal_action_list := action_list;
            goal_info_list := info_list;
            goal_last_step := last_step;
            goal_task_list := task_list;
            goal_type_list := type_list;
            goal_metadata := metadata |}.

(** ** What goes to and comes from the simulator *)

(** Either the scene configuration of an [Initialize] call or the
    validated parameters of a step: the keyword arguments [wrap_step]
    receives besides [action]. *)
Inductive step_payload : Type :=
  | SceneConfig (sceneConfig : pyval)
  | Params (params : step_params).

(** The step data dictionary built by [wrap_step]. *)
Record step_data : Type := {
  continuous : bool;
  gridSize : Q;
  logs : bool;
  renderDepthImage : bool;
  renderObjectImage : bool;
  visibilityDistance : Q;
  sd_action : string;
  sd_payload : step_payload
}.

(** The scene event the simulator answers with. *)
Record scene_event : Type := {
  ev_metadata : pyval;
  ev_frame : pyval;
  ev_depth_frame : pyval;
  ev_instance_segmentation_frame : pyval;
  ev_object_id_to_color : pyval
}.

(** Images are kept symbolic: the PIL calls that produced them. *)
Inductive image : Type :=
  | Image_fromarray (a : pyval)
  | Image_fromarray_div (a : pyval) (k : Q)
  | Image_convert (i : image) (mode : string).

(** Modelled from the spec: the [MCS_Object] record (mcs_object.py is
    not among the sources), with the fields section 3 lists for a
    WorldObject. *)
Record MCS_Object : Type := {
  obj_uuid : pyval;
  obj_color : pyval;
  obj_direction : pyval;
  obj_distance : pyval;
  obj_held : pyval;
  obj_mass : pyval;
  obj_material_list : pyval;
  obj_point_list : pyval;
  obj_visible : pyval
}.

(** Modelled from the spec: the [MCS_Step_Output] record
    (mcs_step_output.py is not among the sources), with the fields
    section 3 lists for a StepOutput. *)
Record MCS_Step_Output : Type := {
  out_action_list : pyval;
  out_depth_mask_list : list image;
  out_goal : option MCS_Goal;
  out_head_tilt : pyval;
  out_image_list : list image;
  out_object_list : list MCS_Object;
  out_object_mask_list : list image;
  out_pose : string;
  out_return_status : string;
  out_step_number : nat
}.

(** ** The collaborators of the controller

    The enumerations, the helpers of [MCS_Util], the noise generator of
    the base class and the simulator are not part of the controller's
    file.  The controller is embedded over an arbitrary choice of them,
    so that whatever is proved of it holds for every vocabulary, every
    status table and every simulator behaviour.  The reconstruction of
    the object list ([retrieve_object_list], which no property below
    depends on) is kept abstract in the same way: any list or any
    exception may come out of it. *)
Class Collaborators : Type := {
  (** [[item.value for item in MCS_Action]] *)
  MCS_Action_values : list string;
  (** [MCS_Action.CLOSE_OBJECT.value] and its two siblings *)
  CLOSE_OBJECT : string;
  DROP_OBJECT : string;
  OPEN_OBJECT : string;
  (** the member names of [MCS_Return_Status] *)
  MCS_Return_Status_names : list string;
  (** [MCS_Util.input_to_action_and_params] *)
  input_to_action_and_params : string -> string * gmap string pyval;
  (** [MCS_Util.generate_pretty_object_output] *)
  generate_pretty_object_output : list MCS_Object -> list string;
  (** the successive values of [MCS_Controller.generate_noise()] *)
  generate_noise : nat -> Q;
  (** [ai2thor.controller.Controller.step], given the calls made so far *)
  ai2thor_step : list step_data -> step_data -> outcome scene_event;
  (** [retrieve_object_list] *)
  retrieve_object_list : scene_event -> outcome (list MCS_Object)
}.

(** ** The controller object and the world around it *)

Record controller : Type := {
  debug_to_file : bool;
  debug_to_terminal : bool;
  enable_noise : bool;
  current_scene : pyval;
  head_tilt : pyval;
  output_folder : option string;
  step_number : nat;
  goal : option MCS_Goal
}.

Record world : Type := {
  (** lines printed, oldest first *)
  stdout : list string;
  (** paths of the files present in the output folders *)
  files : list string;
  (** step data handed to the simulator, oldest first *)
  sim_calls : list step_data;
  (** number of noise values drawn so far *)
  noise_draws : nat
}.

Definition set_current_scene (v : pyval) (c : controller) : controller :=
  {| debug_to_file := debug_to_file c;
     debug_to_terminal := debug_to_terminal c;
     enable_noise := enable_noise c;
     current_scene := v;
     head_tilt := head_tilt c;
     output_folder := output_folder c;
     step_number := step_number c;
     goal := goal c |}.

Definition set_head_tilt (v : pyval) (c : controller) : controller :=
  {| debug_to_file := debug_to_file c;
     debug_to_terminal := debug_to_terminal c;
     enable_noise := enable_noise c;
     current_scene := current_scene c;
     head_tilt := v;
     output_folder := output_folder c;
     step_number := step_number c;
     goal := goal c |}.

Definition set_output_folder (f : option string) (c : controller)
    : controller :=
  {| debug_to_file := debug_to_file c;
     debug_to_terminal := debug_to_terminal c;
     enable_noise := enable_noise c;
     current_scene := current_scene c;
     head_tilt := head_tilt c;
     output_folder := f;
     step_number := step_number c;
     goal := goal c |}.

Definition set_step_number (n : nat) (c : controller) : controller :=
  {| debug_to_file := debug_to_file c;
     debug_to_terminal := debug_to_terminal c;
     enable_noise := enable_noise c;
     current_scene := current_scene c;
     head_tilt := head_tilt c;
     output_folder := output_folder c;
     step_number := n;
     goal := goal c |}.

Definition set_goal (g : option MCS_Goal) (c : controller) : controller :=
  {| debug_to_file := debug_to_file c;
     debug_to_terminal := debug_to_terminal c;
     enable_noise := enable_noise c;
     current_scene := current_scene c;
     head_tilt := head_tilt c;
     output_folder := output_folder c;
     step_number := step_number c;
     goal := g |}.

(** A method runs from a controller and a world to an outcome and the
    controller and world it leaves behind; what was mutated before an
    exception stays mutated. *)
Definition M (A : Type) : Type :=
  controller * world -> outcome A * (controller * world).

#[global] Instance M_ret : MRet M := fun _ a s => (Return a, s).
#[global] Instance M_bind : MBind M := fun _ _ f m s =>
  match m s with
  | (Return a, s') => f a s'
  | (Raise e, s') => (Raise e, s')
  end.

Definition get_self : M controller := fun s => (Return (fst s), s).
Definition get_world : M world := fun s => (Return (snd s), s).
Definition update_self (f : controller -> controller) : M unit :=
  fun s => (Return tt, (f (fst s), snd s)).
Definition update_world (f : world -> world) : M unit :=
  fun s => (Return tt, (fst s, f (snd s))).
Definition lift {A} (o : outcome A) : M A := fun s => (o, s).
Definition when (b : bool) (m : M unit) : M unit :=
  if b then m else mret tt.

Definition add_line (line : string) (w : world) : world :=
  {| stdout := stdout w ++ [line];
     files := files w;
     sim_calls := sim_calls w;
     noise_draws := noise_draws w |}.

Definition add_file (path : string) (w : world) : world :=
  {| stdout := stdout w;
     files := files w ++ [path];
     sim_calls := sim_calls w;
     noise_draws := noise_draws w |}.

Definition add_call (data : step_data) (w : world) : world :=
  {| stdout := stdout w;
     files := files w;
     sim_calls := sim_calls w ++ [data];
     noise_draws := noise_draws w |}.

Definition add_draws (k : nat) (w : world) : world :=
  {| stdout := stdout w;
     files := files w;
     sim_calls := sim_calls w;
     noise_draws := (noise_draws w + k)%nat |}.

(** [print(line)] *)
Definition print (line : string) : M unit := update_world (add_line line).

(** Writing the file at [path] (its content is not followed, and the
    file system is taken to accept it). *)
Definition write_file (path : string) : M unit :=
  update_world (add_file path).

(** [os.remove] on every file of [folder]. *)
Definition remove_files (folder : string) : M unit :=
  update_world (fun w =>
    {| stdout := stdout w;
       files := filter (fun p => negb (String.prefix folder p)) (files w);
       sim_calls := sim_calls w;
       noise_draws := noise_draws w |}).

(** ** The methods of [MCS_Controller_AI2THOR] *)

Section Controller.
Context `{!Collaborators}.

Definition ACTION_LIST : list string := MCS_Action_values.

(** [on_init]: [debug] is [True], ['file'], ['terminal'] or anything else;
    the first two arguments say whether it is one of [True], ['file'],
    respectively one of [True], ['terminal']. *)
Definition on_init (debug_file debug_terminal noise : bool) : controller :=
  {| debug_to_file := debug_file;
     debug_to_terminal := debug_terminal;
     enable_noise := noise;
     current_scene := PNone;
     head_tilt := PNum 0;
     output_folder := None;
     step_number := 0%nat;
     goal := None |}.

Definition mcs_action_to_ai2thor_action (action : string) : string :=
  if String.eqb action CLOSE_OBJECT then "MCSCloseObject"
  else if String.eqb action DROP_OBJECT then "DropHandObject"
  else if String.eqb action OPEN_OBJECT then "MCSOpenObject"
  else action.

(** [self.ACTION_LIST] as a Python value. *)
Definition ACTION_LIST_value : pyval := PList (PStr <$> ACTION_LIST).

Definition retrieve_action_list (goal : option MCS_Goal) (step_number : nat)
    : outcome pyval :=
  match goal with
  | None => Return ACTION_LIST_value
  | Some goal =>
      match goal_action_list goal with
      | PNone => Return ACTION_LIST_value
      | action_list =>
          n ← py_len action_list;
          if (step_number <? n)%nat then
            entry ← py_index action_list step_number;
            k ← py_len entry;
            if (0 <? k)%nat then
              py_index action_list step_number
            else Return ACTION_LIST_value
          else Return ACTION_LIST_value
      end
  end.

Definition retrieve_head_tilt (scene_event : scene_event) : outcome pyval :=
  agent ← py_getitem (ev_metadata scene_event) "agent";
  py_getitem agent "cameraHorizon".

Definition retrieve_pose (scene_event : scene_event) : string := "STAND".

(** [MCS_Return_Status[key]]: the member of that name. *)
Definition MCS_Return_Status_getitem (key : pyval) : outcome string :=
  match key with
  | PStr name =>
      if bool_decide (name ∈ MCS_Return_Status_names) then Return name
      else Raise KeyError
  | PList _ | PDict _ => Raise TypeError
  | _ => Raise KeyError
  end.

(** ["Return status " + v + " is not currently supported."] *)
Definition unsupported_status_message (v : pyval) : outcome string :=
  match v with
  | PStr s =>
      Return ("Return status " ++ s ++ " is not currently supported.")
  | _ => Raise TypeError
  end.

Definition retrieve_return_status (scene_event : scene_event) : M string :=
  let return_status := "UNDEFINED" in
  let try_body : outcome string :=
    status ← py_getitem (ev_metadata scene_event) "lastActionStatus";
    if py_truthy status then MCS_Return_Status_getitem status
    else Return return_status in
  match try_body with
  | Return return_status => mret return_status
  | Raise KeyError =>
      (* except KeyError: the message is computed, then printed; an
         exception met on the way is dropped by the return of the
         finally clause *)
      let message : outcome string :=
        status ← py_getitem (ev_metadata scene_event) "lastActionStatus";
        unsupported_status_message status in
      match message with
      | Return line => print line ;; mret return_status
      | Raise _ => mret return_status
      end
  | Raise _ =>
      (* finally: return return_status *)
      mret return_status
  end.

Definition debug_files_on (self : controller) : bool :=
  debug_to_file self && bool_decide (is_Some (output_folder self)).

Definition output_path (self : controller) (name : string) (ext : string)
    : string :=
  default "" (output_folder self) ++ name ++ pretty (step_number self) ++ ext.

Definition save_images (scene_event : scene_event)
    : M (image * image * image) :=
  let scene_image := Image_fromarray (ev_frame scene_event) in
  let depth_mask := Image_fromarray_div (ev_depth_frame scene_event) 30 in
  let depth_mask := Image_convert depth_mask "L" in
  let object_mask :=
    Image_fromarray (ev_instance_segmentation_frame scene_event) in
  self ← get_self;
  when (debug_files_on self)
    (write_file (output_path self "frame_image_" ".png") ;;
     write_file (output_path self "depth_mask_" ".png") ;;
     write_file (output_path self "object_mask_" ".png")) ;;
  mret (scene_image, depth_mask, object_mask).

Definition wrap_output (scene_event : scene_event) : M MCS_Step_Output :=
  self ← get_self;
  when (debug_files_on self)
    (write_file (output_path self "ai2thor_output_" ".json")) ;;
  '(image, depth_mask, object_mask) ← save_images scene_event;
  action_list ← lift (retrieve_action_list (goal self) (step_number self));
  head_tilt ← lift (retrieve_head_tilt scene_event);
  object_list ← lift (retrieve_object_list scene_event);
  return_status ← retrieve_return_status scene_event;
  let step_output :=
    {| out_action_list := action_list;
       out_depth_mask_list := [depth_mask];
       out_goal := goal self;
       out_head_tilt := head_tilt;
       out_image_list := [image];
       out_object_list := object_list;
       out_object_mask_list := [object_mask];
       out_pose := retrieve_pose scene_event;
       out_return_status := return_status;
       out_step_number := step_number self |} in
  update_self (set_head_tilt (out_head_tilt step_output)) ;;
  when (debug_to_terminal self)
    (print ("RETURN STATUS: " ++ out_return_status step_output) ;;
     print ("OBJECTS (" ++ pretty (length (out_object_list step_output))
            ++ " TOTAL):") ;;
     foldr (fun line rest => print ("    " ++ line) ;; rest) (mret tt)
       (generate_pretty_object_output (out_object_list step_output))) ;;
  when (debug_files_on self)
    (write_file (output_path self "mcs_output_" ".json")) ;;
  mret step_output.

Definition wrap_step (action : string) (payload : step_payload)
    : M step_data :=
  let step_data :=
    {| continuous := true;
       gridSize := GRID_SIZE;
       logs := true;
       renderDepthImage := true;
       renderObjectImage := true;
       visibilityDistance := MAX_REACH_DISTANCE;
       sd_action := action;
       sd_payload := payload |} in
  self ← get_self;
  when (debug_files_on self)
    (write_file (output_path self "ai2thor_input_" ".json")) ;;
  mret step_data.

(** [self.__controller.step(step_data)] *)
Definition controller_step (data : step_data) : M scene_event :=
  w ← get_world;
  update_world (add_call data) ;;
  lift (ai2thor_step (sim_calls w) data).

(** [self.validate_and_convert_params(action, **kwargs)] binds [self]
    and [action] by position: keyword arguments that name one of them
    again make the call raise TypeError before its body runs. *)
Definition bind_keywords (kwargs : gmap string pyval) : outcome unit :=
  if bool_decide (is_Some (kwargs !! "self"))
     || bool_decide (is_Some (kwargs !! "action"))
  then Raise TypeError
  else Return tt.

(** The noise values this call of [validate_and_convert_params] would
    draw, and the account of the three draws when noise is enabled. *)
Definition draw_noise : M (nat -> Q) :=
  self ← get_self;
  w ← get_world;
  when (enable_noise self) (update_world (add_draws 3)) ;;
  mret (fun k => generate_noise (noise_draws w + k)%nat).

Definition last_step_warning : string :=
  "MCS Warning: You have passed the last step of this scene. Skipping your action."
  ++ "Please call controller.end_scene() now.".

Definition invalid_action_warning (action : string) : string :=
  "MCS Warning: The given action '" ++ action
  ++ "' is not valid. Exchanging it with the 'Pass' action.".

(** [',' in action] *)
Definition has_comma (action : string) : bool :=
  bool_decide (is_Some (String.index 0 "," action)).

(** [self.__goal.last_step is not None and
     self.__goal.last_step < self.__step_number] *)
Definition past_last_step (self : controller) : outcome bool :=
  match goal self with
  | None => Raise AttributeError
  | Some goal =>
      match goal_last_step goal with
      | PNone => Return false
      | last_step => py_lt_nat last_step (step_number self)
      end
  end.

(** [if ',' in action:
      action, kwargs = MCS_Util.input_to_action_and_params(action)] *)
Definition split_command (action : string) (kwargs : gmap string pyval)
    : string * gmap string pyval :=
  if has_comma action then input_to_action_and_params action
  else (action, kwargs).

(** [step]; the call of the base class's [step], which is the abstract
    method of the interface, comes first and does nothing.  [kwargs] is
    what the body receives: a call that passes [self] or [action] as a
    keyword fails before the body runs, so such keys can reach it only
    out of the split of a command. *)
Definition step (action : string) (kwargs : gmap string pyval)
    : M (option MCS_Step_Output) :=
  self ← get_self;
  past ← lift (past_last_step self);
  if past : bool then
    print last_step_warning ;;
    mret (None : option MCS_Step_Output)
  else
    let '(action, kwargs) := split_command action kwargs in
    action ← (if negb (action_in action ACTION_LIST)
              then print (invalid_action_warning action) ;; mret "Pass"
              else mret action : M string);
    update_self (set_step_number (step_number self + 1)%nat) ;;
    self ← get_self;
    when (debug_to_terminal self)
      (print "===============================================================================" ;;
       print ("STEP: " ++ pretty (step_number self)) ;;
       print ("ACTION: " ++ action)) ;;
    lift (bind_keywords kwargs) ;;
    noise ← draw_noise;
    let params :=
      validate_and_convert_params (enable_noise self) noise action kwargs in
    (* Only call mcs_action_to_ai2thor_action AFTER calling
       validate_and_convert_params *)
    let action := mcs_action_to_ai2thor_action action in
    data ← wrap_step action (Params params);
    scene_event ← controller_step data;
    step_output ← wrap_output scene_event;
    mret (Some step_output).

(** [start_scene]; the call of the base class's [start_scene] comes
    first and does nothing. *)
Definition start_scene (config_data : pyval) : M MCS_Step_Output :=
  update_self (set_current_scene config_data) ;;
  update_self (set_step_number 0%nat) ;;
  goal ← lift (retrieve_goal config_data);
  update_self (set_goal (Some goal)) ;;
  self ← get_self;
  (if debug_to_file self then
     name ← lift (py_getitem config_data "name");
     match name with
     | PNone => mret tt
     | PStr name =>
         let folder := "./" ++ name ++ "/" in
         update_self (set_output_folder (Some folder)) ;;
         remove_files folder
     | _ => lift (Raise TypeError)
     end
   else mret tt) ;;
  data ← wrap_step "Initialize" (SceneConfig config_data);
  scene_event ← controller_step data;
  wrap_output scene_event.

End Controller.

(** ** A sample choice of collaborators

    Used only to run the controller on concrete inputs; every general
    statement below is proved for all collaborators. *)

Module Sample.

(** Modelled from the spec: a vocabulary of actions (mcs_action.py is
    not among the sources), "move/rotate/pickup/open/close/throw/push/
    pull/pass", with identifiers in the style of those the controller
    and the human-input script spell out. *)
Definition actions : list string :=
  ["CloseObject"; "DropObject"; "MoveAhead"; "MoveBack"; "MoveLeft";
   "MoveRight"; "OpenObject"; "Pass"; "PickupObject"; "PullObject";
   "PushObject"; "PutObject"; "RotateLook"; "ThrowObject"].

(** What the simulator answers to every call in the sample runs. *)
Definition event : scene_event :=
  {| ev_metadata :=
       PDict (<["agent" := PDict (<["cameraHorizon" := PNum 0]> ∅)]>
              (<["lastActionStatus" := PStr "SUCCESSFUL"]>
              (<["objects" := PList []]> ∅)));
     ev_frame := PNone;
     ev_depth_frame := PNone;
     ev_instance_segmentation_frame := PNone;
     ev_object_id_to_color := PDict ∅ |}.

(** The identifier before the first comma, parameters left out. *)
Definition before_comma (command : string) : string :=
  match String.index 0 "," command with
  | Some n => String.substring 0 n command
  | None => command
  end.

#[local] Instance collaborators : Collaborators :=
  {| MCS_Action_values := actions;
     CLOSE_OBJECT := "CloseObject";
     DROP_OBJECT := "DropObject";
     OPEN_OBJECT := "OpenObject";
     MCS_Return_Status_names := ["SUCCESSFUL"; "FAILED"; "UNDEFINED"];
     input_to_action_and_params := fun command => (before_comma command, ∅);
     generate_pretty_object_output := fun _ => [];
     generate_noise := fun _ => 0;
     ai2thor_step := fun _ _ => Return event;
     retrieve_object_list := fun _ => Return [] |}.

Definition quiet_world : world :=
  {| stdout := []; files := []; sim_calls := []; noise_draws := 0 |}.

(** A controller created with [debug=False, enable_noise=False]. *)
Definition fresh : controller * world := (on_init false false false, quiet_world).

(** The state a method leaves behind, whatever its outcome. *)
Definition after {A} (m : M A) (s : controller * world)
    : controller * world := snd (m s).

(** The scene configuration [{"goal": {"last_step": 2}}]. *)
Definition config_last_step_2 : pyval :=
  PDict (<["goal" := PDict (<["last_step" := PNum 2]> ∅)]> ∅).

(** The controller after [start_scene] on that configuration, and after
    one, two and three calls of [step("MoveAhead")]. *)
Definition started : controller * world :=
  after (start_scene config_last_step_2) fresh.
Definition stepped_once : controller * world :=
  after (step "MoveAhead" ∅) started.
Definition stepped_twice : controller * world :=
  after (step "MoveAhead" ∅) stepped_once.
Definition stepped_thrice : controller * world :=
  after (step "MoveAhead" ∅) stepped_twice.

(** Metadata without the key lastActionStatus, and the event that
    carries it. *)
Definition metadata_without_status : gmap string pyval :=
  <["agent" := PDict (<["cameraHorizon" := PNum 0]> ∅)]>
    (<["objects" := PList []]> ∅).

Definition event_without_status : scene_event :=
  {| ev_metadata := PDict metadata_without_status;
     ev_frame := PNone;
     ev_depth_frame := PNone;
     ev_instance_segmentation_frame := PNone;
     ev_object_id_to_color := PDict ∅ |}.

(** Metadata whose status, "SUCCESS", is no member of the enum, and the
    event that carries it. *)
Definition metadata_unknown_status : gmap string pyval :=
  <["lastActionStatus" := PStr "SUCCESS"]> metadata_without_status.

Definition event_unknown_status : scene_event :=
  {| ev_metadata := PDict metadata_unknown_status;
     ev_frame := PNone;
     ev_depth_frame := PNone;
     ev_instance_segmentation_frame := PNone;
     ev_object_id_to_color := PDict ∅ |}.

(** A goal that permits only MoveAhead at step 0 and says nothing
    (an empty list) for step 1. *)
Definition goal_with_action_list : MCS_Goal :=
  {| goal_action_list := PList [PList [PStr "MoveAhead"]; PList []];
     goal_info_list := PList [];
     goal_last_step := PNone;
     goal_task_list := PList [];
     goal_type_list := PList [];
     goal_metadata := PDict ∅ |}.

End Sample.

(** The three parameters that have a range, with the key, the bounds
    and the default the range check of each is given (source lines 191
    to 194). *)
Inductive ranged_param : Type := Horizon | Amount | Force.

Definition param_key (p : ranged_param) : string :=
  match p with
  | Horizon => HORIZON_KEY
  | Amount => AMOUNT_KEY
  | Force => FORCE_KEY
  end.

Definition param_min (p : ranged_param) : Q :=
  match p with
  | Horizon => MIN_HORIZON
  | Amount => MIN_AMOUNT
  | Force => MIN_FORCE
  end.

Definition param_max (p : ranged_param) : Q :=
  match p with
  | Horizon => MAX_HORIZON
  | Amount => MAX_AMOUNT
  | Force => MAX_FORCE
  end.

Definition param_default (p : ranged_param) : Q :=
  match p with
  | Horizon => DEFAULT_HORIZON
  | Amount => DEFAULT_AMOUNT
  | Force => DEFAULT_FORCE
  end.

Definition param_normalized (p : ranged_param) (n : normalized) : Q :=
  match p with
  | Horizon => n_horizon n
  | Amount => n_amount n
  | Force => n_force n
  end.

(** ** Notions used to state the properties of [step] *)

(** What an accepted call of [step] does once the action is settled and
    the counter incremented (source lines 255 to 265). *)
Definition perform {E : Collaborators} (action : string)
    (kwargs : gmap string pyval) : M (option MCS_Step_Output) :=
  self ← get_self;
  when (debug_to_terminal self)
    (print "===============================================================================" ;;
     print ("STEP: " ++ pretty (step_number self)) ;;
     print ("ACTION: " ++ action)) ;;
  lift (bind_keywords kwargs) ;;
  noise ← draw_noise;
  let params :=
    validate_and_convert_params (enable_noise self) noise action kwargs in
  let action := mcs_action_to_ai2thor_action action in
  data ← wrap_step action (Params params);
  scene_event ← controller_step data;
  step_output ← wrap_output scene_event;
  mret (Some step_output).

(** The step data [wrap_step] builds. *)
Definition step_data_of (action : string) (payload : step_payload)
    : step_data :=
  {| continuous := true;
     gridSize := GRID_SIZE;
     logs := true;
     renderDepthImage := true;
     renderObjectImage := true;
     visibilityDistance := MAX_REACH_DISTANCE;
     sd_action := action;
     sd_payload := payload |}.

(** The step data an accepted call hands to the simulator. *)
Definition step_data_sent {E : Collaborators} (action : string)
    (kwargs : gmap string pyval) (c : controller) (w : world) : step_data :=
  step_data_of (mcs_action_to_ai2thor_action action)
    (Params (validate_and_convert_params (enable_noise c)
               (fun k => generate_noise (noise_draws w + k)%nat)
               action kwargs)).

(** The state [s'] differs from [s] at most in the cached head tilt, in
    what was printed and in the files written. *)
Definition same_session (s s' : controller * world) : Prop :=
  fst s' = set_head_tilt (head_tilt (fst s')) (fst s)
  /\ sim_calls (snd s') = sim_calls (snd s)
  /\ noise_draws (snd s') = noise_draws (snd s).

(** The method [m] leaves the session as it was, whatever its outcome. *)
Definition keeps_session {A} (m : M A) : Prop :=
  forall s, same_session s (snd (m s)).

(** ** Notions used to state further properties *)

(** The keys [validate_and_convert_params] reads from its keyword
    arguments. *)
Definition recognised_keys : list string :=
  [ROTATION_KEY; HORIZON_KEY; AMOUNT_KEY; FORCE_KEY;
   OBJECT_DIRECTION_X_KEY; OBJECT_DIRECTION_Y_KEY; OBJECT_DIRECTION_Z_KEY;
   RECEPTACLE_DIRECTION_X; RECEPTACLE_DIRECTION_Y; RECEPTACLE_DIRECTION_Z;
   "objectId"; "receptacleObjectId"].

(** The six direction parameters, with their key and the component of
    the payload each ends in. *)
Inductive direction_param : Type :=
  | ObjectX | ObjectY | ObjectZ
  | ReceptacleX | ReceptacleY | ReceptacleZ.

Definition direction_key (p : direction_param) : string :=
  match p with
  | ObjectX => OBJECT_DIRECTION_X_KEY
  | ObjectY => OBJECT_DIRECTION_Y_KEY
  | ObjectZ => OBJECT_DIRECTION_Z_KEY
  | ReceptacleX => RECEPTACLE_DIRECTION_X
  | ReceptacleY => RECEPTACLE_DIRECTION_Y
  | ReceptacleZ => RECEPTACLE_DIRECTION_Z
  end.

Definition direction_component (p : direction_param) (params : step_params)
    : Q :=
  match p with
  | ObjectX => dir_x (objectDirection params)
  | ObjectY => dir_y (objectDirection params)
  | ObjectZ => dir_z (objectDirection params)
  | ReceptacleX => dir_x (receptacleObjectDirection params)
  | ReceptacleY => dir_y (receptacleObjectDirection params)
  | ReceptacleZ => dir_z (receptacleObjectDirection params)
  end.

(** The fields [wrap_step] sets in every step data. *)
Definition fixed_fields (data : step_data) : Prop :=
  continuous data = true
  /\ gridSize data = GRID_SIZE
  /\ logs data = true
  /\ renderDepthImage data = true
  /\ renderObjectImage data = true
  /\ visibilityDistance data = MAX_REACH_DISTANCE.

(** A caller that makes the calls of [calls] one after the other and
    goes on after an exception: the state after the last call, and the
    outcomes of the calls in order. *)
Fixpoint run_steps {E : Collaborators}
    (calls : list (string * gmap string pyval)) (s : controller * world)
    : controller * world :=
  match calls with
  | [] => s
  | (action, kwargs) :: calls => run_steps calls (snd (step action kwargs s))
  end.

Fixpoint step_outcomes {E : Collaborators}
    (calls : list (string * gmap string pyval)) (s : controller * world)
    : list (outcome (option MCS_Step_Output)) :=
  match calls with
  | [] => []
  | (action, kwargs) :: calls =>
      fst (step action kwargs s)
      :: step_outcomes calls (snd (step action kwargs s))
  end.

(** The names [mcs_action_to_ai2thor_action] gives to the three actions
    it renames. *)
Definition renamed_actions : list string :=
  ["MCSCloseObject"; "DropHandObject"; "MCSOpenObject"].

(** The method [m] leaves the controller object as it was, whatever
    its outcome. *)
Definition keeps_controller {A} (m : M A) : Prop :=
  forall s, fst (snd (m s)) = fst s.

(** ** The reconstruction of the objects

    [retrieve_object_output] and [retrieve_object_list], over the
    metadata of the event and its table [object_id_to_color], which is
    the dictionary from object ids to colors that the simulator builds
    and is typed as such.  What Python's strings and dictionaries do
    and the embedding does not record (upper case beyond ASCII, the
    characters of a string and the order of the keys of a dictionary
    as iteration yields them) and the material check of [MCS_Util] are
    left open. *)

Class ObjectCollaborators : Type := {
  (** [MCS_Util.verify_material_enum_string], as a condition *)
  verify_material_enum_string : string -> bool;
  (** [str.upper] *)
  str_upper : string -> string;
  (** the characters that iterating over a string yields *)
  str_characters : string -> list string;
  (** the keys that iterating over a dictionary yields, in order *)
  dict_keys : gmap string pyval -> list string
}.

Module Objects.
Section WithCollaborators.
Context `{!ObjectCollaborators}.

(** [for x in v]: the values the iteration yields. *)
Definition py_iter (v : pyval) : outcome (list pyval) :=
  match v with
  | PList l => Return l
  | PStr s => Return (PStr <$> str_characters s)
  | PDict d => Return (PStr <$> dict_keys d)
  | _ => Raise TypeError
  end.

(** [material.upper()] *)
Definition py_upper (material : pyval) : outcome string :=
  match material with
  | PStr s => Return (str_upper s)
  | _ => Raise AttributeError
  end.

(** [object_id_to_color[key]]: the keys of the table are strings, so
    that any other key that can be hashed is not found and one that
    cannot raises TypeError. *)
Definition color_of (object_id_to_color : gmap string pyval) (key : pyval)
    : outcome pyval :=
  match key with
  | PStr object_id =>
      match object_id_to_color !! object_id with
      | Some rgb => Return rgb
      | None => Raise KeyError
      end
  | PList _ | PDict _ => Raise TypeError
  | _ => Raise KeyError
  end.

(** [v / divisor] for a number [divisor] other than zero. *)
Definition py_div (v : pyval) (divisor : Q) : outcome pyval :=
  match v with
  | PNum q => Return (PNum (q / divisor))
  | PBool b => Return (PNum ((if b then 1 else 0) / divisor))
  | _ => Raise TypeError
  end.

(** [list(filter(MCS_Util.verify_material_enum_string,
                 [material.upper() for material in salient]))
     if salient is not None else []] *)
Definition salient_material_list (salient : pyval) : outcome (list string) :=
  match salient with
  | PNone => Return []
  | _ =>
      materials ← py_iter salient;
      uppers ← mapM py_upper materials;
      Return (List.filter verify_material_enum_string uppers)
  end.

Definition retrieve_object_output (object_metadata : pyval)
    (object_id_to_color : gmap string pyval) : outcome MCS_Object :=
  salient ← py_getitem object_metadata "salientMaterials";
  material_list ← salient_material_list salient;
  objectId ← py_getitem object_metadata "objectId";
  rgb ← color_of object_id_to_color objectId;
  uuid ← py_getitem object_metadata "objectId";
  r ← py_index rgb 0;
  g ← py_index rgb 1;
  b ← py_index rgb 2;
  direction ← py_getitem object_metadata "direction";
  distanceXZ ← py_getitem object_metadata "distanceXZ";
  distance ← py_div distanceXZ MAX_MOVE_DISTANCE;
  held ← py_getitem object_metadata "isPickedUp";
  mass ← py_getitem object_metadata "mass";
  points ← py_getitem object_metadata "points";
  visibleInCamera ← py_getitem object_metadata "visibleInCamera";
  visible ← (if py_truthy visibleInCamera then Return visibleInCamera
             else py_getitem object_metadata "isPickedUp");
  Return {| obj_uuid := uuid;
            obj_color := PDict (<["r" := r]> (<["g" := g]> (<["b" := b]> ∅)));
            obj_direction := direction;
            obj_distance := distance;
            obj_held := held;
            obj_mass := mass;
            obj_material_list :=
              (if (length material_list =? 0)%nat then PNone
               else PList (PStr <$> material_list));
            obj_point_list := points;
            obj_visible := visible |}.

(** The key of [sorted(..., key=lambda x: x.uuid)].  The uuid of an
    output is an object id found in the table, hence a string, and
    strings compare by their characters, the shorter first when one
    begins the other. *)
Definition uuid_key (object : MCS_Object) : string :=
  match obj_uuid object with
  | PStr s => s
  | _ => ""
  end.

(** One step of a stable sort: [object] goes before the first element
    whose key is greater, after every element of the same key. *)
Fixpoint insert_by_uuid (object : MCS_Object) (sorted : list MCS_Object)
    : list MCS_Object :=
  match sorted with
  | [] => [object]
  | first :: rest =>
      if String.ltb (uuid_key object) (uuid_key first)
      then object :: first :: rest
      else first :: insert_by_uuid object rest
  end.

(** [sorted(objects, key=lambda x: x.uuid)]: the stable sort. *)
Definition sorted_by_uuid (objects : list MCS_Object) : list MCS_Object :=
  foldl (fun sorted object => insert_by_uuid object sorted) [] objects.

Definition retrieve_object_list (metadata : pyval)
    (object_id_to_color : gmap string pyval) : outcome (list MCS_Object) :=
  objects ← py_getitem metadata "objects";
  items ← py_iter objects;
  outputs ← mapM (fun object_metadata =>
                    retrieve_object_output object_metadata object_id_to_color)
               items;
  Return (sorted_by_uuid outputs).

(** The uuids of two outputs, in this order, are strings in ascending
    order. *)
Definition uuid_le (a b : MCS_Object) : Prop :=
  exists sa sb,
    obj_uuid a = PStr sa /\ obj_uuid b = PStr sb /\ String.leb sa sb = true.

(** The same on the keys of the sort. *)
Definition key_le (a b : MCS_Object) : Prop :=
  String.leb (uuid_key a) (uuid_key b) = true.

End WithCollaborators.

(** Upper case of an ASCII letter. *)
Definition ascii_upper (c : Ascii.ascii) : Ascii.ascii :=
  let n := Ascii.nat_of_ascii c in
  if (97 <=? n)%nat && (n <=? 122)%nat then Ascii.ascii_of_nat (n - 32)
  else c.

Fixpoint ascii_string_upper (s : string) : string :=
  match s with
  | EmptyString => EmptyString
  | String c rest => String (ascii_upper c) (ascii_string_upper rest)
  end.

(** A sample choice, for ASCII strings: upper case letter by letter,
    one character a byte; three materials; dictionaries iterated in the
    order of their keys. *)
Definition sample_collaborators : ObjectCollaborators :=
  {| verify_material_enum_string := fun name =>
       bool_decide (name ∈ ["METAL"; "WOOD"; "PLASTIC"]);
     str_upper := ascii_string_upper;
     str_characters := fun s =>
       (fun c => String c EmptyString) <$> String.list_ascii_of_string s;
     dict_keys := fun d => fst <$> map_to_list d |}.

Definition sample_colors : gmap string pyval :=
  <["cup" := PList [PNum 1; PNum 2; PNum 3]]>
    (<["ball" := PList [PNum 4; PNum 5; PNum 6]]> ∅).

Definition sample_object (object_id : string) (materials : pyval)
    (seen held : bool) : pyval :=
  PDict (<["objectId" := PStr object_id]>
        (<["salientMaterials" := materials]>
        (<["direction" := PNone]>
        (<["distanceXZ" := PNum (3 # 2)]>
        (<["isPickedUp" := PBool held]>
        (<["mass" := PNum 1]>
        (<["points" := PList []]>
        (<["visibleInCamera" := PBool seen]> ∅)))))))).

Definition sample_metadata : pyval :=
  PDict (<["objects" :=
             PList [sample_object "cup" (PList [PStr "metal"; PStr "glass"])
                      true false;
                    sample_object "ball" PNone false true]]> ∅).

End Objects.

(** ** Further sample inputs *)

Module MoreSamples.

(** The goal of all defaults, and the goal of the configuration
    [{"goal": {"last_step": 2}}]. *)
Definition default_goal : MCS_Goal :=
  {| goal_action_list := PNone;
     goal_info_list := PList [];
     goal_last_step := PNone;
     goal_task_list := PList [];
     goal_type_list := PList [];
     goal_metadata := PDict ∅ |}.

Definition goal_last_step_2 : MCS_Goal :=
  {| goal_action_list := PNone;
     goal_info_list := PList [];
     goal_last_step := PNum 2;
     goal_task_list := PList [];
     goal_type_list := PList [];
     goal_metadata := PDict ∅ |}.

(** A goal whose last_step is the string "2", and one whose action list
    has None for its first step. *)
Definition goal_text_last_step : MCS_Goal :=
  {| goal_action_list := PNone;
     goal_info_list := PList [];
     goal_last_step := PStr "2";
     goal_task_list := PList [];
     goal_type_list := PList [];
     goal_metadata := PDict ∅ |}.

Definition goal_none_entry : MCS_Goal :=
  {| goal_action_list := PList [PNone; PList [PStr "Pass"]];
     goal_info_list := PList [];
     goal_last_step := PNone;
     goal_task_list := PList [];
     goal_type_list := PList [];
     goal_metadata := PDict ∅ |}.

(** The sample controller in an empty scene, without last_step. *)
Definition open_scene : controller * world :=
  Sample.after (@start_scene Sample.collaborators (PDict ∅)) Sample.fresh.

(** A scene whose goal has type_list alone. *)
Definition config_type_list_alone : pyval :=
  PDict (<["goal" :=
             PDict (<["type_list" := PList [PStr "interaction"]]> ∅)]> ∅).

(** The metadata of the sample event, and metadata whose status is the
    number 5. *)
Definition metadata_successful : gmap string pyval :=
  <["agent" := PDict (<["cameraHorizon" := PNum 0]> ∅)]>
    (<["lastActionStatus" := PStr "SUCCESSFUL"]>
    (<["objects" := PList []]> ∅)).

Definition metadata_numeric_status : gmap string pyval :=
  <["lastActionStatus" := PNum 5]> Sample.metadata_without_status.

Definition event_numeric_status : scene_event :=
  {| ev_metadata := PDict metadata_numeric_status;
     ev_frame := PNone;
     ev_depth_frame := PNone;
     ev_instance_segmentation_frame := PNone;
     ev_object_id_to_color := PDict ∅ |}.

(** An event without the agent, and collaborators whose simulator
    answers every call with it. *)
Definition event_without_agent : scene_event :=
  {| ev_metadata := PDict (<["objects" := PList []]> ∅);
     ev_frame := PNone;
     ev_depth_frame := PNone;
     ev_instance_segmentation_frame := PNone;
     ev_object_id_to_color := PDict ∅ |}.

Definition blind_collaborators : Collaborators :=
  {| MCS_Action_values := Sample.actions;
     CLOSE_OBJECT := "CloseObject";
     DROP_OBJECT := "DropObject";
     OPEN_OBJECT := "OpenObject";
     MCS_Return_Status_names := ["SUCCESSFUL"; "FAILED"; "UNDEFINED"];
     input_to_action_and_params :=
       fun command => (Sample.before_comma command, ∅);
     generate_pretty_object_output := fun _ => [];
     generate_noise := fun _ => 0;
     ai2thor_step := fun _ _ => Return event_without_agent;
     retrieve_object_list := fun _ => Return [] |}.

(** A controller in a scene of all defaults, before any call. *)
Definition in_default_scene : controller :=
  set_goal (Some default_goal) (on_init false false false).

(** A controller whose scene has the string "2" for last_step. *)
Definition in_text_scene : controller :=
  set_goal (Some goal_text_last_step) (on_init false false false).

(** A controller created with [debug=True], after [start_scene] on the
    configuration [{"name": "scene"}]: debug files go to ./scene/. *)
Definition config_named : pyval :=
  PDict (<["name" := PStr "scene"]> ∅).

Definition debug_scene : controller * world :=
  Sample.after (@start_scene Sample.collaborators config_named)
    (on_init true true false, Sample.quiet_world).

End MoreSamples.

(** Run from a controller for which debug files are off, the method
    [m] writes no file and leaves them off, whatever its outcome. *)
Definition writes_no_file {E : Collaborators} {A} (m : M A) : Prop :=
  forall s,
    debug_files_on (fst s) = false ->
    files (snd (snd (m s))) = files (snd s)
    /\ debug_files_on (fst (snd (m s))) = false.

(** The files a call writes, in order, when debug files are on: those
    of [wrap_output] for the controller [self], after the input file of
    [wrap_step]. *)
Definition output_files {E : Collaborators} (self : controller)
    : list string :=
  [output_path self "ai2thor_output_" ".json";
   output_path self "frame_image_" ".png";
   output_path self "depth_mask_" ".png";
   output_path self "object_mask_" ".png";
   output_path self "mcs_output_" ".json"].

(** * Properties *)

(** Decidable facts about concrete inputs are settled by evaluation. *)
Ltac by_evaluation :=
  apply (bool_decide_unpack _); vm_compute; exact I.

(** ** Validation and normalization *)

Lemma Qlt_bool_true (a b : Q) : a < b -> Qlt_bool a b = true.
Proof.
  intros Hlt. unfold Qlt_bool.
  destruct (Qle_bool b a) eqn:E; [|reflexivity].
  apply Qle_bool_iff in E. exfalso. exact (Qlt_not_le _ _ Hlt E).
Qed.

Lemma Qlt_bool_false (a b : Q) : b <= a -> Qlt_bool a b = false.
Proof.
  intros Hle. unfold Qlt_bool.
  apply Qle_bool_iff in Hle. rewrite Hle. reflexivity.
Qed.

Lemma is_in_range_outside (v lo hi d : Q) (label : string) :
  v < lo \/ hi < v -> is_in_range v lo hi d label = d.
Proof.
  intros [Hlo | Hhi]; unfold is_in_range.
  - rewrite (Qlt_bool_true v lo Hlo). rewrite orb_true_r. reflexivity.
  - rewrite (Qlt_bool_true hi v Hhi). reflexivity.
Qed.

Lemma is_in_range_inside (v lo hi d : Q) (label : string) :
  lo <= v -> v <= hi -> is_in_range v lo hi d label = v.
Proof.
  intros Hlo Hhi. unfold is_in_range.
  rewrite (Qlt_bool_false hi v Hhi), (Qlt_bool_false v lo Hlo).
  reflexivity.
Qed.

Lemma kwargs_get_supplied (kwargs : gmap string pyval) key d v :
  kwargs !! key = Some v -> kwargs_get kwargs key d = v.
Proof. intros H. unfold kwargs_get. rewrite H. reflexivity. Qed.

Lemma kwargs_get_missing (kwargs : gmap string pyval) key d :
  kwargs !! key = None -> kwargs_get kwargs key d = d.
Proof. intros H. unfold kwargs_get. rewrite H. reflexivity. Qed.

(** What the type check and the range check leave in [horizon],
    [amount] and [force] when a number was supplied. *)
Lemma normalized_of_number (p : ranged_param) action
    (kwargs : gmap string pyval) (v : Q) :
  kwargs !! param_key p = Some (PNum v) ->
  param_normalized p (normalize_params action kwargs)
  = is_in_range v (param_min p) (param_max p) (param_default p) (param_key p).
Proof.
  intros H. destruct p; simpl in *; unfold normalize_params; simpl;
    rewrite (kwargs_get_supplied _ _ _ _ H); reflexivity.
Qed.

(** The amount when none was supplied: the [get] already put the
    movement default in, which passes the type check. *)
Lemma amount_not_supplied action (kwargs : gmap string pyval) :
  kwargs !! AMOUNT_KEY = None ->
  n_amount (normalize_params action kwargs) = DEFAULT_AMOUNT.
Proof.
  intros H. unfold normalize_params; simpl.
  rewrite (kwargs_get_missing _ _ _ H). reflexivity.
Qed.

Lemma force_actions_only (action : string) :
  action ∈ FORCE_ACTIONS ->
  action_in action FORCE_ACTIONS = true
  /\ action_in action OBJECT_MOVE_ACTIONS = false
  /\ action_in action MOVE_ACTIONS = false.
Proof.
  unfold FORCE_ACTIONS. intros H.
  repeat (apply elem_of_cons in H as [-> | H]); [by vm_compute ..|].
  by apply elem_of_nil in H.
Qed.

Lemma object_move_actions_only (action : string) :
  action ∈ OBJECT_MOVE_ACTIONS ->
  action_in action OBJECT_MOVE_ACTIONS = true
  /\ action_in action MOVE_ACTIONS = false.
Proof.
  unfold OBJECT_MOVE_ACTIONS. intros H.
  repeat (apply elem_of_cons in H as [-> | H]); [by vm_compute ..|].
  by apply elem_of_nil in H.
Qed.

Lemma move_magnitude_cases (noise : nat -> Q) action
    (kwargs : gmap string pyval) :
  moveMagnitude (validate_and_convert_params false noise action kwargs)
  = let locals := normalize_params action kwargs in
    if action_in action MOVE_ACTIONS then n_amount locals * MAX_MOVE_DISTANCE
    else if action_in action OBJECT_MOVE_ACTIONS then n_amount locals
    else if action_in action FORCE_ACTIONS then n_force locals * MAX_BABY_FORCE
    else MAX_MOVE_DISTANCE.
Proof. reflexivity. Qed.

(** C5: with noise disabled, moveMagnitude is force × 25 for the force
    actions (ThrowObject, PushObject, PullObject), the amount itself for
    the open/close actions (OpenObject, CloseObject), amount × 0.5 for
    the movement actions (MoveAhead, MoveLeft, MoveRight, MoveBack) and
    0.5 for every other action, where force and amount are the
    normalized values. *)
Theorem move_magnitude_by_action_class (noise : nat -> Q) (action : string)
    (kwargs : gmap string pyval) :
  let locals := normalize_params action kwargs in
  let params := validate_and_convert_params false noise action kwargs in
  (action ∈ FORCE_ACTIONS -> moveMagnitude params = n_force locals * 25)
  /\ (action ∈ OBJECT_MOVE_ACTIONS -> moveMagnitude params = n_amount locals)
  /\ (action ∈ MOVE_ACTIONS ->
      moveMagnitude params = n_amount locals * (1 # 2))
  /\ (action ∉ FORCE_ACTIONS -> action ∉ OBJECT_MOVE_ACTIONS ->
      action ∉ MOVE_ACTIONS -> moveMagnitude params = 1 # 2).
Proof.
  intros locals params. subst params.
  rewrite move_magnitude_cases. fold locals. cbv zeta.
  repeat split.
  - intros H. destruct (force_actions_only _ H) as (-> & -> & ->).
    reflexivity.
  - intros H. destruct (object_move_actions_only _ H) as (-> & ->).
    reflexivity.
  - intros H. unfold action_in. rewrite (bool_decide_eq_true_2 _ H).
    reflexivity.
  - intros Hf Ho Hm. unfold action_in.
    rewrite (bool_decide_eq_false_2 _ Hf), (bool_decide_eq_false_2 _ Ho),
      (bool_decide_eq_false_2 _ Hm).
    reflexivity.
Qed.

Lemma move_magnitude_by_action_class_witness :
  moveMagnitude
    (validate_and_convert_params false (fun _ => 0) "PushObject"
       (<["force" := PNum (1 # 4)]> ∅)) = (1 # 4) * 25
  /\ moveMagnitude
       (validate_and_convert_params false (fun _ => 0) "OpenObject"
          (<["amount" := PNum (3 # 4)]> ∅)) = 3 # 4
  /\ moveMagnitude
       (validate_and_convert_params false (fun _ => 0) "MoveBack"
          (<["amount" := PNum (3 # 4)]> ∅)) = (3 # 4) * (1 # 2)
  /\ moveMagnitude
       (validate_and_convert_params false (fun _ => 0) "RotateLook" ∅)
     = 1 # 2.
Proof.
  destruct (move_magnitude_by_action_class (fun _ => 0) "PushObject"
              (<["force" := PNum (1 # 4)]> ∅)) as (Hforce & _).
  destruct (move_magnitude_by_action_class (fun _ => 0) "OpenObject"
              (<["amount" := PNum (3 # 4)]> ∅)) as (_ & Hopen & _).
  destruct (move_magnitude_by_action_class (fun _ => 0) "MoveBack"
              (<["amount" := PNum (3 # 4)]> ∅)) as (_ & _ & Hmove & _).
  destruct (move_magnitude_by_action_class (fun _ => 0) "RotateLook" ∅)
    as (_ & _ & _ & Hother).
  split; [|split; [|split]].
  - apply Hforce. by_evaluation.
  - apply Hopen. by_evaluation.
  - apply Hmove. by_evaluation.
  - apply Hother; by_evaluation.
Defined.

(** C6: a number supplied for horizon, amount or force that lies
    outside the range of that parameter ([-180, 180], [0, 1], [0, 1])
    is replaced by the default of the parameter (0, 0.5 and 0.5: the
    constants DEFAULT_HORIZON, DEFAULT_AMOUNT and DEFAULT_FORCE, for
    every action), which is neither bound of the range. *)
Theorem out_of_range_replaced_by_default (p : ranged_param)
    (action : string) (kwargs : gmap string pyval) (v : Q) :
  kwargs !! param_key p = Some (PNum v) ->
  v < param_min p \/ param_max p < v ->
  param_normalized p (normalize_params action kwargs) = param_default p
  /\ ~ param_default p == param_min p
  /\ ~ param_default p == param_max p.
Proof.
  intros Hsupplied Houtside. split.
  - rewrite (normalized_of_number p action kwargs v Hsupplied).
    apply is_in_range_outside. exact Houtside.
  - destruct p; split; intros H; vm_compute in H; discriminate H.
Qed.

Lemma out_of_range_replaced_by_default_witness :
  n_horizon (normalize_params "RotateLook" (<["horizon" := PNum 200]> ∅))
  = 0
  /\ n_amount (normalize_params "MoveAhead" (<["amount" := PNum (3 # 2)]> ∅))
     = 1 # 2
  /\ n_force (normalize_params "PushObject" (<["force" := PNum (-1)]> ∅))
     = 1 # 2.
Proof.
  split; [|split].
  - apply (out_of_range_replaced_by_default Horizon "RotateLook"
             (<["horizon" := PNum 200]> ∅) 200).
    + vm_compute. reflexivity.
    + right. vm_compute. reflexivity.
  - apply (out_of_range_replaced_by_default Amount "MoveAhead"
             (<["amount" := PNum (3 # 2)]> ∅) (3 # 2)).
    + vm_compute. reflexivity.
    + right. vm_compute. reflexivity.
  - apply (out_of_range_replaced_by_default Force "PushObject"
             (<["force" := PNum (-1)]> ∅) (-1)).
    + vm_compute. reflexivity.
    + left. vm_compute. reflexivity.
Defined.

(** A number within the range is kept. *)
Lemma in_range_kept (p : ranged_param) (action : string)
    (kwargs : gmap string pyval) (v : Q) :
  kwargs !! param_key p = Some (PNum v) ->
  param_min p <= v -> v <= param_max p ->
  param_normalized p (normalize_params action kwargs) = v.
Proof.
  intros Hsupplied Hlo Hhi.
  rewrite (normalized_of_number p action kwargs v Hsupplied).
  apply is_in_range_inside; assumption.
Qed.

(** With noise disabled the horizon of the payload is the normalized
    one. *)
Lemma horizon_of_payload (noise : nat -> Q) action
    (kwargs : gmap string pyval) :
  horizon (validate_and_convert_params false noise action kwargs)
  = n_horizon (normalize_params action kwargs).
Proof. reflexivity. Qed.

(** The type check of the rotation: anything that is not a number is
    replaced by the default rotation. *)
Lemma rotation_type_checked (noise : nat -> Q) action
    (kwargs : gmap string pyval) (v : pyval) :
  kwargs !! ROTATION_KEY = Some v ->
  is_number v ROTATION_KEY = false ->
  rot_y (rotation (validate_and_convert_params false noise action kwargs))
  = DEFAULT_ROTATION.
Proof.
  intros Hsupplied Hnot.
  unfold validate_and_convert_params, normalize_params; simpl.
  rewrite (kwargs_get_supplied _ _ _ _ Hsupplied), Hnot. reflexivity.
Qed.

(** C10: the rotation is type-checked but never range-checked: with
    noise disabled, every number supplied as rotation, however far
    outside [MIN_ROTATION, MAX_ROTATION] = [-360, 360], is the yaw
    component of the rotation vector of the payload, unchanged. *)
Theorem rotation_never_range_checked (noise : nat -> Q) (action : string)
    (kwargs : gmap string pyval) (q : Q) :
  kwargs !! ROTATION_KEY = Some (PNum q) ->
  rot_y (rotation (validate_and_convert_params false noise action kwargs))
  = q.
Proof.
  intros Hsupplied.
  unfold validate_and_convert_params, normalize_params; simpl.
  rewrite (kwargs_get_supplied _ _ _ _ Hsupplied). reflexivity.
Qed.

Lemma rotation_never_range_checked_witness :
  MAX_ROTATION < 100000
  /\ rot_y (rotation (validate_and_convert_params false (fun _ => 0)
                        "RotateLook" (<["rotation" := PNum 100000]> ∅)))
     = 100000.
Proof.
  split.
  - vm_compute. reflexivity.
  - apply (rotation_never_range_checked (fun _ => 0) "RotateLook"
             (<["rotation" := PNum 100000]> ∅) 100000).
    vm_compute. reflexivity.
Defined.

(** C2 (what the code does): for the open/close actions (OpenObject,
    CloseObject) and no amount supplied, the normalized amount is 0.5,
    and so is moveMagnitude; it is not the 1 that the comment in the
    code announces as the default for open/close.  That default is
    reached only when an amount that is not a number is supplied. *)
Theorem open_close_amount_not_supplied (noise : nat -> Q) (action : string)
    (kwargs : gmap string pyval) :
  action ∈ OBJECT_MOVE_ACTIONS ->
  kwargs !! AMOUNT_KEY = None ->
  n_amount (normalize_params action kwargs) = 1 # 2
  /\ moveMagnitude (validate_and_convert_params false noise action kwargs)
     = 1 # 2
  /\ ~ n_amount (normalize_params action kwargs)
       == DEFAULT_OBJECT_MOVE_AMOUNT.
Proof.
  intros Haction Hmissing.
  pose proof (amount_not_supplied action kwargs Hmissing) as Hamount.
  split; [exact Hamount|]. split.
  - rewrite move_magnitude_cases. cbv zeta.
    destruct (object_move_actions_only _ Haction) as (-> & ->).
    exact Hamount.
  - rewrite Hamount. intros H. vm_compute in H. discriminate H.
Qed.

Lemma open_close_amount_not_supplied_witness :
  n_amount (normalize_params "OpenObject" ∅) = 1 # 2
  /\ moveMagnitude
       (validate_and_convert_params false (fun _ => 0) "OpenObject" ∅)
     = 1 # 2
  /\ ~ n_amount (normalize_params "OpenObject" ∅)
       == DEFAULT_OBJECT_MOVE_AMOUNT.
Proof.
  apply (open_close_amount_not_supplied (fun _ => 0) "OpenObject" ∅).
  - by_evaluation.
  - vm_compute. reflexivity.
Defined.

(** The default of 1 for open/close is reached when the amount
    supplied is not a number. *)
Lemma open_close_amount_not_a_number (action : string)
    (kwargs : gmap string pyval) (v : pyval) :
  action ∈ OBJECT_MOVE_ACTIONS ->
  kwargs !! AMOUNT_KEY = Some v ->
  is_number v AMOUNT_KEY = false ->
  n_amount (normalize_params action kwargs) = DEFAULT_OBJECT_MOVE_AMOUNT.
Proof.
  intros Haction Hsupplied Hnot.
  destruct (object_move_actions_only _ Haction) as (Hin & _).
  unfold normalize_params; simpl.
  rewrite (kwargs_get_supplied _ _ _ _ Hsupplied), Hnot, Hin. reflexivity.
Qed.

(** For the movement actions and no amount supplied, the normalized
    amount is 0.5. *)
Lemma move_amount_not_supplied (action : string)
    (kwargs : gmap string pyval) :
  action ∈ MOVE_ACTIONS ->
  kwargs !! AMOUNT_KEY = None ->
  n_amount (normalize_params action kwargs) = 1 # 2.
Proof. intros _ Hmissing. exact (amount_not_supplied action kwargs Hmissing). Qed.

(** ** The goal of a scene *)

(** The goal built from a configuration whose ["goal"] entry is the
    dictionary [g]: the three lists are read under their own keys, each
    guarded by the presence of ["type_list"]. *)
Lemma retrieve_goal_of_dict (scene g : gmap string pyval) :
  scene !! "goal" = Some (PDict g) ->
  retrieve_goal (PDict scene)
  = match g !! "type_list" with
    | None =>
        Return {| goal_action_list := default PNone (g !! "action_list");
                  goal_info_list := PList [];
                  goal_last_step := default PNone (g !! "last_step");
                  goal_task_list := PList [];
                  goal_type_list := PList [];
                  goal_metadata := default (PDict ∅) (g !! "metadata") |}
    | Some type_list =>
        match g !! "info_list", g !! "task_list" with
        | Some info_list, Some task_list =>
            Return {| goal_action_list := default PNone (g !! "action_list");
                      goal_info_list := info_list;
                      goal_last_step := default PNone (g !! "last_step");
                      goal_task_list := task_list;
                      goal_type_list := type_list;
                      goal_metadata := default (PDict ∅) (g !! "metadata") |}
        | _, _ => Raise KeyError
        end
    end.
Proof.
  intros Hgoal.
  unfold retrieve_goal, config_field; simpl. rewrite Hgoal; simpl.
  destruct (g !! "action_list"), (g !! "type_list"), (g !! "info_list"),
    (g !! "last_step"), (g !! "task_list"), (g !! "metadata");
    reflexivity.
Qed.

(** Without a ["goal"] entry every field takes its default. *)
Lemma retrieve_goal_without_goal (scene : gmap string pyval) :
  scene !! "goal" = None ->
  retrieve_goal (PDict scene)
  = Return {| goal_action_list := PNone;
              goal_info_list := PList [];
              goal_last_step := PNone;
              goal_task_list := PList [];
              goal_type_list := PList [];
              goal_metadata := PDict ∅ |}.
Proof.
  intros Hgoal. unfold retrieve_goal; simpl. rewrite Hgoal. reflexivity.
Qed.

(** C4 (what the code does): [retrieve_goal] raises KeyError on every
    configuration whose goal has the key "type_list" and lacks
    "info_list" or "task_list": the two lists are read under their own
    keys but guarded by the presence of "type_list". *)
Theorem retrieve_goal_type_list_alone_fails (scene g : gmap string pyval) :
  scene !! "goal" = Some (PDict g) ->
  is_Some (g !! "type_list") ->
  g !! "info_list" = None \/ g !! "task_list" = None ->
  retrieve_goal (PDict scene) = Raise KeyError.
Proof.
  intros Hgoal [type_list Htype] Hmissing.
  rewrite (retrieve_goal_of_dict scene g Hgoal), Htype.
  destruct Hmissing as [-> | ->]; [reflexivity|].
  destruct (g !! "info_list"); reflexivity.
Qed.

Lemma retrieve_goal_type_list_alone_fails_witness :
  retrieve_goal
    (PDict (<["goal" :=
                PDict (<["type_list" := PList [PStr "interaction"]]> ∅)]> ∅))
  = Raise KeyError.
Proof.
  apply (retrieve_goal_type_list_alone_fails
           (<["goal" :=
                PDict (<["type_list" := PList [PStr "interaction"]]> ∅)]> ∅)
           (<["type_list" := PList [PStr "interaction"]]> ∅)).
  - vm_compute. reflexivity.
  - by_evaluation.
  - left. vm_compute. reflexivity.
Defined.

(** Where the goal has no "type_list", or has all three lists,
    [retrieve_goal] returns, and the three lists come from the
    configuration exactly when "type_list" is present. *)
Lemma retrieve_goal_lists_gated (scene g : gmap string pyval) :
  scene !! "goal" = Some (PDict g) ->
  (g !! "type_list" = None \/
   (is_Some (g !! "info_list") /\ is_Some (g !! "task_list"))) ->
  exists goal,
    retrieve_goal (PDict scene) = Return goal
    /\ (g !! "type_list" = None ->
        goal_info_list goal = PList [] /\ goal_task_list goal = PList []
        /\ goal_type_list goal = PList [])
    /\ (is_Some (g !! "type_list") ->
        g !! "info_list" = Some (goal_info_list goal)
        /\ g !! "task_list" = Some (goal_task_list goal)
        /\ g !! "type_list" = Some (goal_type_list goal)).
Proof.
  intros Hgoal Hcase. rewrite (retrieve_goal_of_dict scene g Hgoal).
  destruct (g !! "type_list") as [type_list|] eqn:Htype.
  - destruct Hcase as [Hcase | [[info_list Hinfo] [task_list Htask]]];
      [discriminate Hcase|].
    rewrite Hinfo, Htask. eexists. split; [reflexivity|]. split.
    + intros H. discriminate H.
    + intros _. simpl. auto.
  - eexists. split; [reflexivity|]. split.
    + intros _. simpl. auto.
    + intros [x Hx]. discriminate Hx.
Qed.

(** ** The actions permitted at a step *)

(** C9: [retrieve_action_list] returns goal.action_list[step_number]
    itself when that entry exists and is a non-empty list, and the full
    vocabulary when the goal is absent, its action_list is absent, the
    index is out of bounds or the entry is empty. *)
Theorem retrieve_action_list_passthrough {E : Collaborators}
    (goal : option MCS_Goal) (step_number : nat) :
  (forall g l entry,
      goal = Some g ->
      goal_action_list g = PList l ->
      l !! step_number = Some (PList entry) ->
      entry <> [] ->
      retrieve_action_list goal step_number = Return (PList entry))
  /\ ((goal = None
       \/ exists g, goal = Some g
            /\ (goal_action_list g = PNone
                \/ exists l, goal_action_list g = PList l
                     /\ (l !! step_number = None
                         \/ l !! step_number = Some (PList [])))) ->
      retrieve_action_list goal step_number = Return ACTION_LIST_value).
Proof.
  split.
  - intros g l entry -> Hlist Hentry Hnonempty.
    unfold retrieve_action_list. rewrite Hlist. simpl.
    pose proof (lookup_lt_Some _ _ _ Hentry) as Hlt.
    apply Nat.ltb_lt in Hlt. rewrite Hlt, Hentry. simpl.
    destruct entry as [|x entry]; [contradiction|]. reflexivity.
  - intros [-> | (g & -> & [Habsent | (l & Hlist & Hcase)])].
    + reflexivity.
    + unfold retrieve_action_list. rewrite Habsent. reflexivity.
    + unfold retrieve_action_list. rewrite Hlist. simpl.
      destruct Hcase as [Hout | Hempty].
      * apply lookup_ge_None in Hout.
        destruct (Nat.ltb_spec step_number (length l)) as [Hlt|_];
          [lia | reflexivity].
      * pose proof (lookup_lt_Some _ _ _ Hempty) as Hlt.
        apply Nat.ltb_lt in Hlt. rewrite Hlt, Hempty. reflexivity.
Qed.

(** ** The return status *)

(** [retrieve_return_status] always returns, and touches nothing but
    the terminal. *)
Lemma retrieve_return_status_returns {E : Collaborators}
    (ev : scene_event) (s : controller * world) :
  exists status lines,
    retrieve_return_status ev s
    = (Return status,
       (fst s, {| stdout := stdout (snd s) ++ lines;
                  files := files (snd s);
                  sim_calls := sim_calls (snd s);
                  noise_draws := noise_draws (snd s) |})).
Proof.
  destruct s as [c [out fs calls draws]].
  unfold retrieve_return_status.
  destruct (py_getitem (ev_metadata ev) "lastActionStatus" ≫= _)
    as [status | []];
    try (eexists _, []; simpl; rewrite app_nil_r; reflexivity).
  destruct (py_getitem (ev_metadata ev) "lastActionStatus" ≫= _)
    as [line | e].
  - eexists _, [line]. reflexivity.
  - eexists _, []. simpl. rewrite app_nil_r. reflexivity.
Qed.

(** C3 (amended): [retrieve_return_status] never raises; when the key
    lastActionStatus is missing from the metadata, or its value is a
    string unknown to the enum, the result is UNDEFINED; when the value
    is a non-empty string unknown to the enum, one diagnostic line is
    printed. *)
Theorem retrieve_return_status_degrades {E : Collaborators}
    (ev : scene_event) (s : controller * world) :
  raised (fst (retrieve_return_status ev s)) = false
  /\ (forall d,
        ev_metadata ev = PDict d ->
        d !! "lastActionStatus" = None ->
        fst (retrieve_return_status ev s) = Return "UNDEFINED")
  /\ (forall d name,
        ev_metadata ev = PDict d ->
        d !! "lastActionStatus" = Some (PStr name) ->
        name ∉ MCS_Return_Status_names ->
        fst (retrieve_return_status ev s) = Return "UNDEFINED"
        /\ (name <> "" ->
            snd (retrieve_return_status ev s)
            = (fst s,
               add_line ("Return status " ++ name
                         ++ " is not currently supported.") (snd s)))).
Proof.
  split; [|split].
  - destruct (retrieve_return_status_returns ev s) as (st & ls & ->).
    reflexivity.
  - intros d Hmeta Hmissing.
    unfold retrieve_return_status. rewrite Hmeta. simpl.
    rewrite Hmissing. reflexivity.
  - intros d name Hmeta Hstatus Hunknown.
    unfold retrieve_return_status. rewrite Hmeta. simpl.
    rewrite Hstatus. simpl.
    rewrite (bool_decide_eq_false_2 _ Hunknown).
    destruct (String.eqb_spec name "") as [-> | Hne]; simpl.
    + split; [reflexivity|]. intros H. contradiction.
    + split; reflexivity.
Qed.

(** ** The step orchestrator *)

(** [step] by cases on the last-step guard. *)
Lemma step_unfold {E : Collaborators} (action : string)
    (kwargs : gmap string pyval) (c : controller) (w : world) :
  step action kwargs (c, w)
  = match past_last_step c with
    | Raise e => (Raise e, (c, w))
    | Return true => (Return None, (c, add_line last_step_warning w))
    | Return false =>
        let counted := set_step_number (step_number c + 1) c in
        let settled := split_command action kwargs in
        if action_in (fst settled) ACTION_LIST
        then perform (fst settled) (snd settled) (counted, w)
        else perform "Pass" (snd settled)
               (counted, add_line (invalid_action_warning (fst settled)) w)
    end.
Proof.
  unfold step. unfold mbind at 1 2. unfold M_bind at 1 2.
  unfold get_self at 1. unfold lift at 1. cbn [fst snd].
  destruct (past_last_step c) as [[|]|e]; [reflexivity| |reflexivity].
  cbv zeta. destruct (split_command action kwargs) as [a k].
  cbn [fst snd]. destruct (action_in a ACTION_LIST); reflexivity.
Qed.

Lemma same_session_refl (s : controller * world) : same_session s s.
Proof. destruct s as [[] w]. repeat split. Qed.

Lemma same_session_trans (s1 s2 s3 : controller * world) :
  same_session s1 s2 -> same_session s2 s3 -> same_session s1 s3.
Proof.
  intros (Hc & Hcalls & Hdraws) (Hc' & Hcalls' & Hdraws').
  repeat split; [|congruence|congruence].
  rewrite Hc', Hc. destruct (fst s1). reflexivity.
Qed.

Lemma keeps_ret {A} (a : A) : keeps_session (mret a).
Proof. intros s. apply same_session_refl. Qed.

Lemma keeps_bind {A B} (m : M A) (f : A -> M B) :
  keeps_session m -> (forall a, keeps_session (f a)) ->
  keeps_session (m ≫= f).
Proof.
  intros Hm Hf s. unfold mbind, M_bind. specialize (Hm s).
  destruct (m s) as [[a | e] s1]; cbn [snd] in *.
  - eapply same_session_trans; [exact Hm | apply Hf].
  - exact Hm.
Qed.

Lemma keeps_lift {A} (o : outcome A) : keeps_session (lift o).
Proof. intros s. apply same_session_refl. Qed.

Lemma keeps_get_self : keeps_session get_self.
Proof. intros s. apply same_session_refl. Qed.

Lemma keeps_print (line : string) : keeps_session (print line).
Proof. intros [[] w]. repeat split. Qed.

Lemma keeps_write_file (path : string) : keeps_session (write_file path).
Proof. intros [[] w]. repeat split. Qed.

Lemma keeps_set_head_tilt (v : pyval) :
  keeps_session (update_self (set_head_tilt v)).
Proof. intros [[] w]. repeat split. Qed.

Lemma keeps_when (b : bool) (m : M unit) :
  keeps_session m -> keeps_session (when b m).
Proof. intros Hm. destruct b; [exact Hm | apply keeps_ret]. Qed.

Lemma keeps_print_lines (lines : list string) :
  keeps_session
    (foldr (fun line rest => print ("    " ++ line) ;; rest) (mret tt) lines).
Proof.
  induction lines as [|line lines IH]; simpl.
  - apply keeps_ret.
  - apply keeps_bind; [apply keeps_print | intros _; exact IH].
Qed.

Lemma keeps_retrieve_return_status {E : Collaborators} (ev : scene_event) :
  keeps_session (retrieve_return_status ev).
Proof.
  intros s. destruct (retrieve_return_status_returns ev s) as (st & ls & ->).
  destruct s as [[] w]. repeat split.
Qed.

Create HintDb session discriminated.
#[local] Hint Resolve keeps_ret keeps_lift keeps_get_self keeps_print
  keeps_write_file keeps_set_head_tilt keeps_print_lines
  @keeps_retrieve_return_status : session.

Ltac keeps_session_steps :=
  repeat first
    [ apply keeps_bind; [|intros ?]
    | apply keeps_when
    | solve [auto with session]
    | match goal with
      | |- keeps_session (let '(_, _) := ?p in _) => destruct p
      end ].

Lemma keeps_save_images {E : Collaborators} (ev : scene_event) :
  keeps_session (save_images ev).
Proof. unfold save_images. keeps_session_steps. Qed.

(** [wrap_output] changes nothing of the controller but the cached head
    tilt, and makes no simulator call. *)
Lemma keeps_wrap_output {E : Collaborators} (ev : scene_event) :
  keeps_session (wrap_output ev).
Proof.
  unfold wrap_output. pose proof (keeps_save_images ev).
  keeps_session_steps.
Qed.

(** An accepted call, once the action is settled: the terminal lines,
    the noise account and the input file come first and cannot fail;
    then the simulator is called, and its answer is wrapped. *)
Lemma perform_unfold {E : Collaborators} (action : string)
    (kwargs : gmap string pyval) (c : controller) (w : world) :
  perform action kwargs (c, w)
  = let w1 :=
      if debug_to_terminal c
      then add_line ("ACTION: " ++ action)
             (add_line ("STEP: " ++ pretty (step_number c))
                (add_line "===============================================================================" w))
      else w in
    let w2 := if enable_noise c then add_draws 3 w1 else w1 in
    let w3 :=
      if debug_files_on c
      then add_file (output_path c "ai2thor_input_" ".json") w2
      else w2 in
    let data := step_data_sent action kwargs c w in
    match bind_keywords kwargs with
    | Raise e => (Raise e, (c, w1))
    | Return _ =>
        match ai2thor_step (sim_calls w) data with
        | Raise e => (Raise e, (c, add_call data w3))
        | Return scene_event =>
            match wrap_output scene_event (c, add_call data w3) with
            | (Return step_output, s) => (Return (Some step_output), s)
            | (Raise e, s) => (Raise e, s)
            end
        end
    end.
Proof.
  destruct c as [dfile dterm noisy scene tilt folder n g].
  destruct w as [out fs calls draws].
  unfold perform, draw_noise, wrap_step, controller_step, step_data_sent,
    step_data_of, print, write_file, when.
  unfold mbind, M_bind, mret, M_ret, get_self, get_world, update_self,
    update_world, lift.
  destruct dterm, noisy, (bind_keywords kwargs) as [[]|e];
    cbn -[wrap_output validate_and_convert_params debug_files_on
          output_path mcs_action_to_ai2thor_action pretty];
    try reflexivity;
    destruct (debug_files_on _);
    cbn -[wrap_output validate_and_convert_params debug_files_on
          output_path mcs_action_to_ai2thor_action pretty];
    (destruct (ai2thor_step calls _) as [ev | e];
       [destruct (wrap_output ev _) as [[step_output | e] s] |];
       reflexivity).
Qed.

(** An accepted call leaves the controller as it was but for the cached
    head tilt and, when its keyword arguments bind, hands exactly one
    step data to the simulator. *)
Lemma perform_session {E : Collaborators} (action : string)
    (kwargs : gmap string pyval) (c : controller) (w : world) :
  let s := snd (perform action kwargs (c, w)) in
  fst s = set_head_tilt (head_tilt (fst s)) c
  /\ (bind_keywords kwargs = Return tt ->
      sim_calls (snd s)
      = (sim_calls w ++ [step_data_sent action kwargs c w])%list).
Proof.
  rewrite perform_unfold. cbv zeta.
  set (data := step_data_sent action kwargs c w).
  set (w3 := if debug_files_on c then _ else _).
  assert (Hcalls : sim_calls w3 = sim_calls w).
  { subst w3. destruct (debug_files_on c), (enable_noise c),
      (debug_to_terminal c); reflexivity. }
  destruct (bind_keywords kwargs) as [[] | e];
    [| split; [destruct c; reflexivity | intros H; discriminate H]].
  destruct (ai2thor_step (sim_calls w) data) as [ev | e].
  - pose proof (keeps_wrap_output ev (c, add_call data w3))
      as (Hself & Hsim & _).
    destruct (wrap_output ev (c, add_call data w3)) as [[out | e] s];
      cbn [fst snd sim_calls add_call] in *; rewrite Hsim, Hcalls; split;
      first [reflexivity | exact Hself].
  - cbn [fst snd sim_calls add_call]. rewrite Hcalls.
    split; [destruct c|]; reflexivity.
Qed.

(** The guard refuses exactly when the counter has gone beyond
    last_step. *)
Lemma past_last_step_of_number (c : controller) (g : MCS_Goal) (q : Q) :
  goal c = Some g ->
  goal_last_step g = PNum q ->
  past_last_step c = Return (Qlt_bool q (inject_Z (Z.of_nat (step_number c)))).
Proof.
  intros Hgoal Hlast. unfold past_last_step. rewrite Hgoal, Hlast.
  reflexivity.
Qed.

(** A goal without last_step never refuses. *)
Lemma past_last_step_unset (c : controller) (g : MCS_Goal) :
  goal c = Some g ->
  goal_last_step g = PNone ->
  past_last_step c = Return false.
Proof.
  intros Hgoal Hlast. unfold past_last_step. rewrite Hgoal, Hlast.
  reflexivity.
Qed.

(** When the counter has reached last_step, without going beyond it,
    the guard lets the call through. *)
Lemma last_step_reached_is_accepted (c : controller) (g : MCS_Goal) :
  goal c = Some g ->
  goal_last_step g = PNum (inject_Z (Z.of_nat (step_number c))) ->
  past_last_step c = Return false.
Proof.
  intros Hgoal Hlast.
  rewrite (past_last_step_of_number c g _ Hgoal Hlast).
  rewrite Qlt_bool_false; [reflexivity | apply Qle_refl].
Qed.

(** A call the guard refuses returns None, makes no simulator call and
    leaves the controller as it was; it prints the warning. *)
Lemma step_refused {E : Collaborators} (action : string)
    (kwargs : gmap string pyval) (c : controller) (w : world) :
  past_last_step c = Return true ->
  step action kwargs (c, w)
  = (Return None, (c, add_line last_step_warning w)).
Proof. intros Hpast. rewrite step_unfold, Hpast. reflexivity. Qed.

(** A call the guard lets through, and whose keyword arguments bind,
    hands exactly one step data to the simulator; so does, in
    particular, a call made when the counter has just reached
    last_step. *)
Lemma step_accepted_calls_simulator {E : Collaborators} (action : string)
    (kwargs : gmap string pyval) (c : controller) (w : world) :
  past_last_step c = Return false ->
  bind_keywords (snd (split_command action kwargs)) = Return tt ->
  exists data,
    sim_calls (snd (snd (step action kwargs (c, w))))
    = (sim_calls w ++ [data])%list.
Proof.
  intros Hpast Hbind. rewrite step_unfold, Hpast. cbv zeta.
  destruct (action_in _ ACTION_LIST);
    match goal with
    | |- context [perform ?a ?k (?c', ?w')] =>
        destruct (perform_session a k c' w') as (_ & Hcalls)
    end;
    eexists; exact (Hcalls Hbind).
Qed.

(** C8: a call of [step] that passes the last-step guard increases the
    step counter by exactly 1, whatever the action (an unknown one,
    replaced by Pass, included) and whatever happens afterwards; a call
    the guard rejects leaves the counter and the whole controller as
    they were. *)
Theorem step_counter_by_guard {E : Collaborators} (action : string)
    (kwargs : gmap string pyval) (c : controller) (w : world) :
  (past_last_step c = Return false ->
   step_number (fst (snd (step action kwargs (c, w))))
   = S (step_number c))
  /\ (past_last_step c = Return true ->
      fst (snd (step action kwargs (c, w))) = c).
Proof.
  split; intros Hpast.
  - rewrite step_unfold, Hpast. cbv zeta.
    destruct (action_in _ ACTION_LIST);
      match goal with
      | |- context [perform ?a ?k (?c', ?w')] =>
          destruct (perform_session a k c' w') as (-> & _)
      end;
      cbn [step_number set_head_tilt set_step_number]; lia.
  - rewrite (step_refused action kwargs c w Hpast). reflexivity.
Qed.

(** C7: when the action, once a command with commas is split, is not in
    the vocabulary, a call that passes the guard goes on as a call of
    Pass: it is performed as Pass after the warning, and the simulator
    receives one step data, whose action is the translation of Pass,
    that is Pass itself.  (The keyword arguments are taken to bind, as
    those of every direct call do, and Pass not to be one of the three
    actions that are renamed.) *)
Theorem unknown_action_becomes_pass {E : Collaborators} (action : string)
    (kwargs : gmap string pyval) (c : controller) (w : world) :
  past_last_step c = Return false ->
  fst (split_command action kwargs) ∉ ACTION_LIST ->
  bind_keywords (snd (split_command action kwargs)) = Return tt ->
  CLOSE_OBJECT <> "Pass" -> DROP_OBJECT <> "Pass" -> OPEN_OBJECT <> "Pass" ->
  let settled := split_command action kwargs in
  let counted := set_step_number (step_number c + 1) c in
  let warned := add_line (invalid_action_warning (fst settled)) w in
  step action kwargs (c, w) = perform "Pass" (snd settled) (counted, warned)
  /\ exists data,
       sim_calls (snd (snd (step action kwargs (c, w))))
       = (sim_calls w ++ [data])%list
       /\ sd_action data = "Pass".
Proof.
  intros Hpast Hunknown Hbind Hclose Hdrop Hopen settled counted warned.
  assert (Hstep : step action kwargs (c, w)
                  = perform "Pass" (snd settled) (counted, warned)).
  { rewrite step_unfold, Hpast. cbv zeta. unfold action_in.
    rewrite (bool_decide_eq_false_2 _ Hunknown). reflexivity. }
  split; [exact Hstep|].
  rewrite Hstep.
  destruct (perform_session "Pass" (snd settled) counted warned)
    as (_ & Hcalls).
  eexists. split; [exact (Hcalls Hbind)|].
  unfold step_data_sent, step_data_of, mcs_action_to_ai2thor_action.
  cbn [sd_action].
  destruct (String.eqb_spec "Pass" CLOSE_OBJECT) as [Heq|_]; [congruence|].
  destruct (String.eqb_spec "Pass" DROP_OBJECT) as [Heq|_]; [congruence|].
  destruct (String.eqb_spec "Pass" OPEN_OBJECT) as [Heq|_]; [congruence|].
  reflexivity.
Qed.

(** ** Runs with the sample collaborators *)

Section SampleRuns.
#[local] Existing Instance Sample.collaborators.

(** C1 (what the code does): with the configuration
    {"goal": {"last_step": 2}}, after start_scene and two accepted
    calls the counter is 2, it has reached last_step, and the guard
    still lets the third call step("MoveAhead") through: the simulator
    is called with MoveAhead and an output with step number 3 comes
    back.  Only the fourth call is refused (None, no simulator call),
    because the guard tests last_step < step_number. *)
Theorem third_step_accepted_at_last_step_2 :
  step_number (fst Sample.stepped_twice) = 2%nat
  /\ past_last_step (fst Sample.stepped_twice) = Return false
  /\ match fst (step "MoveAhead" ∅ Sample.stepped_twice) with
     | Return (Some step_output) => out_step_number step_output = 3%nat
     | _ => False
     end
  /\ sd_action <$> sim_calls (snd Sample.stepped_thrice)
     = ["Initialize"; "MoveAhead"; "MoveAhead"; "MoveAhead"]
  /\ fst (step "MoveAhead" ∅ Sample.stepped_thrice) = Return None
  /\ sim_calls (snd (Sample.after (step "MoveAhead" ∅) Sample.stepped_thrice))
     = sim_calls (snd Sample.stepped_thrice).
Proof. vm_compute. repeat split. Qed.

(** C3 (counterexample): on metadata without the key lastActionStatus
    the result is UNDEFINED but no diagnostic is printed: the terminal
    is as it was. *)
Lemma missing_status_no_diagnostic :
  ~ (fst (retrieve_return_status Sample.event_without_status Sample.fresh)
     = Return "UNDEFINED"
     /\ stdout (snd (snd (retrieve_return_status
                            Sample.event_without_status Sample.fresh)))
        <> stdout (snd Sample.fresh)).
Proof. intros [_ Hprinted]. apply Hprinted. vm_compute. reflexivity. Qed.

Lemma retrieve_return_status_degrades_witness :
  fst (retrieve_return_status Sample.event_without_status Sample.fresh)
  = Return "UNDEFINED"
  /\ fst (retrieve_return_status Sample.event_unknown_status Sample.fresh)
     = Return "UNDEFINED"
  /\ stdout (snd (snd (retrieve_return_status
                         Sample.event_unknown_status Sample.fresh)))
     = ["Return status SUCCESS is not currently supported."].
Proof.
  destruct (retrieve_return_status_degrades
              Sample.event_without_status Sample.fresh)
    as (_ & Hmissing & _).
  destruct (retrieve_return_status_degrades
              Sample.event_unknown_status Sample.fresh)
    as (_ & _ & Hunknown).
  split.
  - apply (Hmissing Sample.metadata_without_status).
    + reflexivity.
    + vm_compute. reflexivity.
  - assert (Hstatus : Sample.metadata_unknown_status !! "lastActionStatus"
                      = Some (PStr "SUCCESS")) by (vm_compute; reflexivity).
    assert (Hnot : "SUCCESS" ∉ MCS_Return_Status_names) by by_evaluation.
    destruct (Hunknown Sample.metadata_unknown_status "SUCCESS"
                eq_refl Hstatus Hnot) as (Hresult & Hline).
    split; [exact Hresult|].
    rewrite Hline; [reflexivity | intros H; discriminate H].
Defined.

Lemma retrieve_action_list_passthrough_witness :
  retrieve_action_list (Some Sample.goal_with_action_list) 0
  = Return (PList [PStr "MoveAhead"])
  /\ retrieve_action_list (Some Sample.goal_with_action_list) 1
     = Return ACTION_LIST_value
  /\ retrieve_action_list (Some Sample.goal_with_action_list) 7
     = Return ACTION_LIST_value
  /\ retrieve_action_list None 0 = Return ACTION_LIST_value.
Proof.
  split; [|split; [|split]].
  - apply (proj1 (retrieve_action_list_passthrough
                    (Some Sample.goal_with_action_list) 0)
             Sample.goal_with_action_list
             [PList [PStr "MoveAhead"]; PList []] [PStr "MoveAhead"]);
      [reflexivity | reflexivity | reflexivity | intros H; discriminate H].
  - apply (proj2 (retrieve_action_list_passthrough
                    (Some Sample.goal_with_action_list) 1)).
    right. exists Sample.goal_with_action_list. split; [reflexivity|].
    right. exists [PList [PStr "MoveAhead"]; PList []].
    split; [reflexivity|]. right. reflexivity.
  - apply (proj2 (retrieve_action_list_passthrough
                    (Some Sample.goal_with_action_list) 7)).
    right. exists Sample.goal_with_action_list. split; [reflexivity|].
    right. exists [PList [PStr "MoveAhead"]; PList []].
    split; [reflexivity|]. left. reflexivity.
  - apply (proj2 (retrieve_action_list_passthrough None 0)).
    left. reflexivity.
Defined.

Lemma step_counter_by_guard_witness :
  step_number (fst (snd (step "Fly" ∅
                           (fst Sample.started, snd Sample.started))))
  = S (step_number (fst Sample.started))
  /\ fst (snd (step "MoveAhead" ∅
                 (fst Sample.stepped_thrice, snd Sample.stepped_thrice)))
     = fst Sample.stepped_thrice.
Proof.
  split.
  - apply (proj1 (step_counter_by_guard "Fly" ∅
                    (fst Sample.started) (snd Sample.started))).
    vm_compute. reflexivity.
  - apply (proj2 (step_counter_by_guard "MoveAhead" ∅
                    (fst Sample.stepped_thrice) (snd Sample.stepped_thrice))).
    vm_compute. reflexivity.
Defined.

Lemma unknown_action_becomes_pass_witness :
  exists data,
    sim_calls (snd (snd (step "Fly" ∅
                           (fst Sample.started, snd Sample.started))))
    = (sim_calls (snd Sample.started) ++ [data])%list
    /\ sd_action data = "Pass".
Proof.
  apply (unknown_action_becomes_pass "Fly" ∅
           (fst Sample.started) (snd Sample.started)).
  - vm_compute. reflexivity.
  - by_evaluation.
  - vm_compute. reflexivity.
  - intros H; discriminate H.
  - intros H; discriminate H.
  - intros H; discriminate H.
Defined.

End SampleRuns.

(** * Further properties *)

(** ** Validation: what the payload depends on *)

Lemma kwargs_get_insert_ne (kwargs : gmap string pyval) key k v d :
  key <> k -> kwargs_get (<[key := v]> kwargs) k d = kwargs_get kwargs k d.
Proof.
  intros Hne. unfold kwargs_get. rewrite lookup_insert_ne by exact Hne.
  reflexivity.
Qed.

(** A keyword argument under a key the validation does not read changes
    nothing of the payload: it is never forwarded to the simulator. *)
Theorem unrecognised_keyword_ignored (noisy : bool) (noise : nat -> Q)
    (action : string) (kwargs : gmap string pyval) (key : string)
    (v : pyval) :
  key ∉ recognised_keys ->
  validate_and_convert_params noisy noise action (<[key := v]> kwargs)
  = validate_and_convert_params noisy noise action kwargs.
Proof.
  intros Hkey.
  assert (Hne : forall k, k ∈ recognised_keys -> key <> k)
    by (intros k Hk ->; exact (Hkey Hk)).
  unfold validate_and_convert_params, normalize_params.
  unfold ROTATION_KEY, HORIZON_KEY, AMOUNT_KEY, FORCE_KEY,
    OBJECT_DIRECTION_X_KEY, OBJECT_DIRECTION_Y_KEY, OBJECT_DIRECTION_Z_KEY,
    RECEPTACLE_DIRECTION_X, RECEPTACLE_DIRECTION_Y, RECEPTACLE_DIRECTION_Z.
  rewrite !kwargs_get_insert_ne by (apply Hne; by_evaluation).
  reflexivity.
Qed.

Lemma unrecognised_keyword_ignored_witness :
  validate_and_convert_params false (fun _ => 0) "MoveAhead"
    (<["speed" := PNum 9]> (<["amount" := PNum (1 # 4)]> ∅))
  = validate_and_convert_params false (fun _ => 0) "MoveAhead"
      (<["amount" := PNum (1 # 4)]> ∅).
Proof.
  apply (unrecognised_keyword_ignored false (fun _ => 0) "MoveAhead"
           (<["amount" := PNum (1 # 4)]> ∅) "speed" (PNum 9)).
  by_evaluation.
Defined.

Lemma is_in_range_bounds (v lo hi d : Q) (label : string) :
  lo <= d -> d <= hi ->
  lo <= is_in_range v lo hi d label /\ is_in_range v lo hi d label <= hi.
Proof.
  intros Hlo Hhi. unfold is_in_range, Qlt_bool.
  destruct (Qle_bool v hi) eqn:Ehi; simpl; [|split; assumption].
  destruct (Qle_bool lo v) eqn:Elo; simpl; [|split; assumption].
  apply Qle_bool_iff in Ehi, Elo. split; assumption.
Qed.

(** Whatever the keyword arguments hold (nothing, numbers in or out of
    range, values that are not numbers), the normalized horizon, amount
    and force lie within their ranges. *)
Lemma normalized_within_range (p : ranged_param) (action : string)
    (kwargs : gmap string pyval) :
  param_min p <= param_normalized p (normalize_params action kwargs)
  /\ param_normalized p (normalize_params action kwargs) <= param_max p.
Proof.
  destruct p; unfold normalize_params; cbn [param_normalized n_horizon
    n_amount n_force param_min param_max];
    apply is_in_range_bounds; vm_compute; intros H; discriminate H.
Qed.

(** With noise disabled, and whatever the action and the keyword
    arguments, the horizon of the payload lies in [-180, 180] and
    moveMagnitude in [0, 25]: at most 0.5 for a movement action, at
    most 1 for open/close, at most 25 for a force action, and 0.5 for
    any other action. *)
Theorem payload_within_bounds (noise : nat -> Q) (action : string)
    (kwargs : gmap string pyval) :
  let params := validate_and_convert_params false noise action kwargs in
  (MIN_HORIZON <= horizon params /\ horizon params <= MAX_HORIZON)
  /\ (0 <= moveMagnitude params /\ moveMagnitude params <= MAX_BABY_FORCE)
  /\ (action ∈ MOVE_ACTIONS -> moveMagnitude params <= MAX_MOVE_DISTANCE)
  /\ (action ∈ OBJECT_MOVE_ACTIONS -> moveMagnitude params <= MAX_AMOUNT).
Proof.
  intros params. subst params.
  pose proof (normalized_within_range Horizon action kwargs) as Hh.
  pose proof (normalized_within_range Amount action kwargs) as Ha.
  pose proof (normalized_within_range Force action kwargs) as Hf.
  cbn [param_normalized param_min param_max] in Hh, Ha, Hf.
  rewrite horizon_of_payload, move_magnitude_cases. cbv zeta.
  set (amount := n_amount (normalize_params action kwargs)) in *.
  set (force := n_force (normalize_params action kwargs)) in *.
  unfold MIN_AMOUNT, MAX_AMOUNT, MIN_FORCE, MAX_FORCE, MAX_MOVE_DISTANCE,
    MAX_BABY_FORCE in *.
  split; [exact Hh|]. split; [|split].
  - destruct (action_in action MOVE_ACTIONS),
      (action_in action OBJECT_MOVE_ACTIONS),
      (action_in action FORCE_ACTIONS); lra.
  - intros Hmove. unfold action_in.
    rewrite (bool_decide_eq_true_2 _ Hmove). lra.
  - intros Hopen.
    destruct (object_move_actions_only _ Hopen) as (-> & ->). lra.
Qed.

Lemma payload_within_bounds_witness :
  moveMagnitude
    (validate_and_convert_params false (fun _ => 0) "MoveAhead"
       (<["amount" := PNum 7]> ∅)) <= MAX_MOVE_DISTANCE
  /\ moveMagnitude
       (validate_and_convert_params false (fun _ => 0) "CloseObject"
          (<["amount" := PStr "wide"]> ∅)) <= MAX_AMOUNT.
Proof.
  split.
  - apply (payload_within_bounds (fun _ => 0) "MoveAhead"
             (<["amount" := PNum 7]> ∅)).
    by_evaluation.
  - apply (payload_within_bounds (fun _ => 0) "CloseObject"
             (<["amount" := PStr "wide"]> ∅)).
    by_evaluation.
Defined.



(** Each of the six direction parameters ends in its own component of
    the two direction vectors: a number supplied is passed unchanged
    (there is no range check and noise does not touch it), anything
    else, or nothing, gives 0. *)
Theorem direction_passed_to_its_component (p : direction_param)
    (noisy : bool) (noise : nat -> Q) (action : string)
    (kwargs : gmap string pyval) :
  direction_component p
    (validate_and_convert_params noisy noise action kwargs)
  = match kwargs !! direction_key p with
    | Some (PNum q) => q
    | _ => DEFAULT_DIRECTION
    end.
Proof.
  destruct p; unfold validate_and_convert_params, normalize_params,
    kwargs_get;
    cbn [direction_component direction_key objectDirection
         receptacleObjectDirection n_objectDirection
         n_receptacleObjectDirection dir_x dir_y dir_z];
    match goal with
    | |- context [kwargs !! ?k] => destruct (kwargs !! k) as [[]|]
    end; reflexivity.
Qed.

(** With noise enabled, the rotation, the horizon and moveMagnitude are
    the values of the noise-free payload multiplied by one plus the
    first, second and third noise sample; this comes after the range
    checks, which are not applied again, and leaves the identifiers and
    the direction vectors as they are. *)
Lemma noise_scales_after_checks (noise : nat -> Q) (action : string)
    (kwargs : gmap string pyval) :
  let quiet := validate_and_convert_params false noise action kwargs in
  validate_and_convert_params true noise action kwargs
  = {| objectId := objectId quiet;
       receptacleObjectId := receptacleObjectId quiet;
       rotation := {| rot_y := rot_y (rotation quiet) * (1 + noise 0%nat) |};
       horizon := horizon quiet * (1 + noise 1%nat);
       moveMagnitude := moveMagnitude quiet * (1 + noise 2%nat);
       objectDirection := objectDirection quiet;
       receptacleObjectDirection := receptacleObjectDirection quiet |}.
Proof. reflexivity. Qed.

(** With noise enabled, a horizon supplied within its range is sent as
    that horizon times one plus the second noise sample: the noise
    comes after the range check, which is not applied again, so the
    horizon sent can lie outside [-180, 180]. *)
Theorem noisy_horizon_unchecked (noise : nat -> Q) (action : string)
    (kwargs : gmap string pyval) (h : Q) :
  kwargs !! HORIZON_KEY = Some (PNum h) ->
  MIN_HORIZON <= h -> h <= MAX_HORIZON ->
  horizon (validate_and_convert_params true noise action kwargs)
  = h * (1 + noise 1%nat).
Proof.
  intros Hsupplied Hlo Hhi. rewrite noise_scales_after_checks.
  cbn [horizon]. rewrite horizon_of_payload.
  pose proof (in_range_kept Horizon action kwargs h Hsupplied Hlo Hhi)
    as Hkept.
  cbn [param_normalized] in Hkept. rewrite Hkept. reflexivity.
Qed.

Lemma noisy_horizon_unchecked_witness :
  horizon (validate_and_convert_params true (fun _ => 1 # 2) "RotateLook"
             (<["horizon" := PNum 180]> ∅))
  = 180 * (1 + (1 # 2))
  /\ MAX_HORIZON < 180 * (1 + (1 # 2)).
Proof.
  split.
  - apply (noisy_horizon_unchecked (fun _ => 1 # 2) "RotateLook"
             (<["horizon" := PNum 180]> ∅) 180).
    + vm_compute. reflexivity.
    + vm_compute. intros H; discriminate H.
    + vm_compute. intros H; discriminate H.
  - vm_compute. reflexivity.
Defined.

(** ** The action translator *)

(** Translating twice is translating once, as long as none of the three
    names the translation introduces is itself the identifier of the
    close, drop or open action; in particular an action that is none of
    these three is left as it is. *)
Theorem translation_idempotent {E : Collaborators} (action : string) :
  CLOSE_OBJECT ∉ renamed_actions ->
  DROP_OBJECT ∉ renamed_actions ->
  OPEN_OBJECT ∉ renamed_actions ->
  mcs_action_to_ai2thor_action (mcs_action_to_ai2thor_action action)
  = mcs_action_to_ai2thor_action action
  /\ (action <> CLOSE_OBJECT -> action <> DROP_OBJECT ->
      action <> OPEN_OBJECT ->
      mcs_action_to_ai2thor_action action = action).
Proof.
  intros Hclose Hdrop Hopen.
  assert (Hfresh : forall name, name ∈ renamed_actions ->
            mcs_action_to_ai2thor_action name = name).
  { intros name Hname. unfold mcs_action_to_ai2thor_action.
    destruct (String.eqb_spec name CLOSE_OBJECT) as [-> | _];
      [contradiction|].
    destruct (String.eqb_spec name DROP_OBJECT) as [-> | _];
      [contradiction|].
    destruct (String.eqb_spec name OPEN_OBJECT) as [-> | _];
      [contradiction|].
    reflexivity. }
  assert (Hcases : mcs_action_to_ai2thor_action action ∈ renamed_actions
                   \/ (mcs_action_to_ai2thor_action action = action
                       /\ action <> CLOSE_OBJECT /\ action <> DROP_OBJECT
                       /\ action <> OPEN_OBJECT)).
  { unfold mcs_action_to_ai2thor_action.
    destruct (String.eqb_spec action CLOSE_OBJECT) as [_ | Hc];
      [left; by_evaluation|].
    destruct (String.eqb_spec action DROP_OBJECT) as [_ | Hd];
      [left; by_evaluation|].
    destruct (String.eqb_spec action OPEN_OBJECT) as [_ | Ho];
      [left; by_evaluation|].
    right. auto. }
  split.
  - destruct Hcases as [Hrenamed | (Hsame & _)].
    + apply Hfresh. exact Hrenamed.
    + rewrite Hsame. exact Hsame.
  - intros Hc Hd Ho. unfold mcs_action_to_ai2thor_action.
    destruct (String.eqb_spec action CLOSE_OBJECT); [contradiction|].
    destruct (String.eqb_spec action DROP_OBJECT); [contradiction|].
    destruct (String.eqb_spec action OPEN_OBJECT); [contradiction|].
    reflexivity.
Qed.

(** ** The step orchestrator: failures of the guard, sequences of calls *)

(** What a call of [step] does to the controller: nothing, or the
    increment of the counter and a new cached head tilt.  The second
    happens exactly when the guard lets the call through. *)
Lemma step_controller_cases {E : Collaborators} (action : string)
    (kwargs : gmap string pyval) (c : controller) (w : world) :
  let c' := fst (snd (step action kwargs (c, w))) in
  (past_last_step c <> Return false /\ c' = c)
  \/ (past_last_step c = Return false
      /\ c' = set_head_tilt (head_tilt c')
                (set_step_number (step_number c + 1) c)).
Proof.
  cbv zeta. rewrite step_unfold.
  destruct (past_last_step c) as [[|]|e] eqn:Hpast.
  - left. split; [intros H; discriminate H | reflexivity].
  - right. split; [reflexivity|]. cbv zeta.
    destruct (action_in _ ACTION_LIST);
      match goal with
      | |- context [perform ?a ?k (?c', ?w')] =>
          destruct (perform_session a k c' w') as (Hself & _)
      end; exact Hself.
  - left. split; [intros H; discriminate H | reflexivity].
Qed.

(** What a call of [step] does to the list of simulator calls: nothing,
    or one more call whose data [wrap_step] built. *)
Lemma step_calls_cases {E : Collaborators} (action : string)
    (kwargs : gmap string pyval) (c : controller) (w : world) :
  let w' := snd (snd (step action kwargs (c, w))) in
  sim_calls w' = sim_calls w
  \/ exists name payload,
       sim_calls w' = (sim_calls w ++ [step_data_of name payload])%list.
Proof.
  cbv zeta. rewrite step_unfold.
  destruct (past_last_step c) as [[|]|e]; [left; reflexivity | | left; reflexivity].
  cbv zeta.
  assert (Hperform : forall a k c1 w1,
            sim_calls (snd (snd (perform a k (c1, w1)))) = sim_calls w1
            \/ exists name payload,
                 sim_calls (snd (snd (perform a k (c1, w1))))
                 = (sim_calls w1 ++ [step_data_of name payload])%list).
  { intros a k c1 w1.
    destruct (bind_keywords k) as [[] | e] eqn:Hbind.
    - right. destruct (perform_session a k c1 w1) as (_ & Hcalls).
      eexists _, _. exact (Hcalls Hbind).
    - left. rewrite perform_unfold, Hbind. cbv zeta. cbn [snd].
      destruct (debug_to_terminal c1); reflexivity. }
  destruct (action_in _ ACTION_LIST);
    match goal with
    | |- context [perform ?a ?k (?c', ?w')] =>
        exact (Hperform a k c' w')
    end.
Qed.

(** When the guard itself fails, [step] raises and changes nothing: a
    call before any [start_scene] (there is no goal yet) raises
    AttributeError, and a call in a scene whose last_step is a string,
    a list or a dictionary raises TypeError; neither prints, counts or
    calls the simulator. *)
Theorem step_guard_failure {E : Collaborators} (action : string)
    (kwargs : gmap string pyval) (c : controller) (w : world) :
  (goal c = None ->
   step action kwargs (c, w) = (Raise AttributeError, (c, w)))
  /\ (forall g,
        goal c = Some g ->
        (exists s, goal_last_step g = PStr s)
        \/ (exists l, goal_last_step g = PList l)
        \/ (exists d, goal_last_step g = PDict d) ->
        step action kwargs (c, w) = (Raise TypeError, (c, w))).
Proof.
  split.
  - intros Hgoal. rewrite step_unfold. unfold past_last_step.
    rewrite Hgoal. reflexivity.
  - intros g Hgoal Hlast. rewrite step_unfold. unfold past_last_step.
    rewrite Hgoal.
    destruct Hlast as [[s ->] | [[l ->] | [d ->]]]; reflexivity.
Qed.

(** A call of [step] makes at most one simulator call, and the step
    data of every call it makes carries the fixed fields of
    [wrap_step]: if all calls made so far do, so do all calls made
    after it. *)
Theorem step_calls_keep_fixed_fields {E : Collaborators} (action : string)
    (kwargs : gmap string pyval) (c : controller) (w : world) :
  Forall fixed_fields (sim_calls w) ->
  Forall fixed_fields (sim_calls (snd (snd (step action kwargs (c, w)))))
  /\ (length (sim_calls (snd (snd (step action kwargs (c, w)))))
      <= S (length (sim_calls w)))%nat.
Proof.
  intros Hfixed.
  destruct (step_calls_cases action kwargs c w)
    as [-> | (name & payload & ->)].
  - split; [exact Hfixed | lia].
  - split.
    + apply Forall_app. split; [exact Hfixed|].
      constructor; [|constructor]. repeat split.
    + rewrite length_app. simpl. lia.
Qed.

(** A known action, in a call the guard lets through and whose keyword
    arguments bind, reaches the simulator under its translated name,
    with the payload validated under its own name, before the
    translation. *)
Theorem known_action_translated_after_validation {E : Collaborators}
    (action : string) (kwargs : gmap string pyval) (c : controller)
    (w : world) :
  past_last_step c = Return false ->
  fst (split_command action kwargs) ∈ ACTION_LIST ->
  bind_keywords (snd (split_command action kwargs)) = Return tt ->
  let settled := split_command action kwargs in
  exists data,
    sim_calls (snd (snd (step action kwargs (c, w))))
    = (sim_calls w ++ [data])%list
    /\ sd_action data = mcs_action_to_ai2thor_action (fst settled)
    /\ sd_payload data
       = Params (validate_and_convert_params (enable_noise c)
                   (fun k => generate_noise (noise_draws w + k)%nat)
                   (fst settled) (snd settled)).
Proof.
  intros Hpast Hknown Hbind settled.
  rewrite step_unfold, Hpast. cbv zeta. unfold action_in.
  rewrite (bool_decide_eq_true_2 _ Hknown).
  match goal with
  | |- context [perform ?a ?k (?c', ?w')] =>
      destruct (perform_session a k c' w') as (_ & Hcalls)
  end.
  eexists. split; [exact (Hcalls Hbind)|]. split; reflexivity.
Qed.

(** When the action holds a comma, the keyword arguments of the call
    are dropped: only those the split of the command gives are used. *)
Lemma command_overrides_keywords {E : Collaborators} (action : string)
    (kwargs kwargs' : gmap string pyval) (s : controller * world) :
  has_comma action = true ->
  step action kwargs s = step action kwargs' s.
Proof.
  intros Hcomma. destruct s as [c w]. rewrite !step_unfold.
  unfold split_command. rewrite Hcomma. reflexivity.
Qed.

(** Once the guard refuses a call it refuses every later call, whatever
    the actions: each returns None, the controller stays as it is and
    the simulator is not called again (until [start_scene] resets the
    counter). *)
Theorem refused_once_refused_forever {E : Collaborators}
    (calls : list (string * gmap string pyval)) (c : controller)
    (w : world) :
  past_last_step c = Return true ->
  fst (run_steps calls (c, w)) = c
  /\ sim_calls (snd (run_steps calls (c, w))) = sim_calls w
  /\ Forall (fun o => o = Return None) (step_outcomes calls (c, w)).
Proof.
  intros Hpast. revert w.
  induction calls as [|[action kwargs] calls IH]; intros w.
  - repeat split. constructor.
  - cbn [run_steps step_outcomes].
    rewrite (step_refused action kwargs c w Hpast). cbn [fst snd].
    destruct (IH (add_line last_step_warning w)) as (Hc & Hcalls & Hout).
    repeat split; [exact Hc | exact Hcalls |].
    constructor; [reflexivity | exact Hout].
Qed.

(** In a scene without last_step every call passes the guard, so after
    any sequence of calls the counter has advanced by the number of
    calls, whatever the actions and whatever the simulator answered or
    raised. *)
Theorem counter_counts_calls {E : Collaborators}
    (calls : list (string * gmap string pyval)) (c : controller)
    (w : world) (g : MCS_Goal) :
  goal c = Some g ->
  goal_last_step g = PNone ->
  step_number (fst (run_steps calls (c, w)))
  = (step_number c + length calls)%nat.
Proof.
  intros Hgoal Hlast. revert c w Hgoal.
  induction calls as [|[action kwargs] calls IH]; intros c w Hgoal.
  - cbn. lia.
  - cbn [run_steps length].
    pose proof (past_last_step_unset c g Hgoal Hlast) as Hpast.
    destruct (step_controller_cases action kwargs c w)
      as [(Hno & _) | (_ & Hc')]; [contradiction|].
    destruct (step action kwargs (c, w)) as [o [c' w']].
    cbn [fst snd] in *.
    rewrite (IH c' w').
    + rewrite Hc'. cbn [step_number set_head_tilt set_step_number]. lia.
    + rewrite Hc'. exact Hgoal.
Qed.

(** In a scene whose last_step is a number, the counter never goes
    beyond last_step + 1: if it is at most that before a sequence of
    calls, it is at most that after it. *)
Theorem counter_bounded_by_last_step {E : Collaborators}
    (calls : list (string * gmap string pyval)) (c : controller)
    (w : world) (g : MCS_Goal) (q : Q) :
  goal c = Some g ->
  goal_last_step g = PNum q ->
  inject_Z (Z.of_nat (step_number c)) <= q + 1 ->
  inject_Z (Z.of_nat (step_number (fst (run_steps calls (c, w))))) <= q + 1.
Proof.
  intros Hgoal Hlast. revert c w Hgoal.
  induction calls as [|[action kwargs] calls IH]; intros c w Hgoal Hbound.
  - exact Hbound.
  - cbn [run_steps].
    pose proof (past_last_step_of_number c g q Hgoal Hlast) as Hpast.
    destruct (step_controller_cases action kwargs c w)
      as [(_ & Hc') | (Hfalse & Hc')];
      destruct (step action kwargs (c, w)) as [o [c' w']];
      cbn [fst snd] in *.
    + subst c'. apply IH; assumption.
    + apply IH.
      * rewrite Hc'. exact Hgoal.
      * rewrite Hc'. cbn [step_number set_head_tilt set_step_number].
        rewrite Hpast in Hfalse. injection Hfalse as Hfalse.
        unfold Qlt_bool in Hfalse. apply negb_false_iff in Hfalse.
        apply Qle_bool_iff in Hfalse.
        replace (Z.of_nat (step_number c + 1)) with (Z.of_nat (step_number c) + 1)%Z
          by lia.
        rewrite inject_Z_plus. change (inject_Z 1) with 1. lra.
Qed.

(** ** The step output *)

Lemma bind_returns {A B} (m : M A) (f : A -> M B) s b s' :
  (m ≫= f) s = (Return b, s') ->
  exists a s1, m s = (Return a, s1) /\ f a s1 = (Return b, s').
Proof.
  unfold mbind, M_bind. destruct (m s) as [[a | e] s1]; intros H.
  - exists a, s1. split; [reflexivity | exact H].
  - discriminate H.
Qed.

Lemma lift_returns {A} (o : outcome A) s a s' :
  lift o s = (Return a, s') -> o = Return a /\ s' = s.
Proof. unfold lift. intros H. injection H as -> ->. split; reflexivity. Qed.

Lemma controller_ret {A} (a : A) : keeps_controller (mret a).
Proof. intros s. reflexivity. Qed.

Lemma controller_bind {A B} (m : M A) (f : A -> M B) :
  keeps_controller m -> (forall a, keeps_controller (f a)) ->
  keeps_controller (m ≫= f).
Proof.
  intros Hm Hf s. unfold mbind, M_bind. specialize (Hm s).
  destruct (m s) as [[a | e] s1]; cbn [snd] in *.
  - rewrite Hf. exact Hm.
  - exact Hm.
Qed.

Lemma controller_lift {A} (o : outcome A) : keeps_controller (lift o).
Proof. intros s. reflexivity. Qed.

Lemma controller_get_self : keeps_controller get_self.
Proof. intros s. reflexivity. Qed.

Lemma controller_print (line : string) : keeps_controller (print line).
Proof. intros s. reflexivity. Qed.

Lemma controller_write_file (path : string) :
  keeps_controller (write_file path).
Proof. intros s. reflexivity. Qed.

Lemma controller_when (b : bool) (m : M unit) :
  keeps_controller m -> keeps_controller (when b m).
Proof. intros Hm. destruct b; [exact Hm | apply controller_ret]. Qed.

Lemma controller_print_lines (lines : list string) :
  keeps_controller
    (foldr (fun line rest => print ("    " ++ line) ;; rest) (mret tt) lines).
Proof.
  induction lines as [|line lines IH]; simpl.
  - apply controller_ret.
  - apply controller_bind; [apply controller_print | intros _; exact IH].
Qed.

Lemma controller_retrieve_return_status {E : Collaborators}
    (ev : scene_event) : keeps_controller (retrieve_return_status ev).
Proof.
  intros s. destruct (retrieve_return_status_returns ev s) as (st & ls & ->).
  reflexivity.
Qed.

#[local] Hint Resolve controller_ret controller_lift controller_get_self
  controller_print controller_write_file controller_print_lines
  @controller_retrieve_return_status : session.

Ltac keeps_controller_steps :=
  repeat first
    [ apply controller_bind; [|intros ?]
    | apply controller_when
    | solve [auto with session]
    | match goal with
      | |- keeps_controller (let '(_, _) := ?p in _) => destruct p
      end ].

Lemma controller_save_images {E : Collaborators} (ev : scene_event) :
  keeps_controller (save_images ev).
Proof. unfold save_images. keeps_controller_steps. Qed.

Lemma kept_controller {A} (m : M A) s o s' :
  keeps_controller m -> m s = (o, s') -> fst s' = fst s.
Proof. intros Hm H. specialize (Hm s). rewrite H in Hm. exact Hm. Qed.

(** When [wrap_output] returns, the output carries the counter and the
    goal of the controller, the fixed pose, the action list of the goal
    for that counter and the camera horizon of the metadata, which
    becomes the cached head tilt: nothing else of the controller
    changes. *)
Lemma wrap_output_returns {E : Collaborators} (ev : scene_event)
    (c c' : controller) (w w' : world) (out : MCS_Step_Output) :
  wrap_output ev (c, w) = (Return out, (c', w')) ->
  out_step_number out = step_number c
  /\ out_goal out = goal c
  /\ out_pose out = "STAND"
  /\ retrieve_action_list (goal c) (step_number c)
     = Return (out_action_list out)
  /\ retrieve_head_tilt ev = Return (out_head_tilt out)
  /\ retrieve_object_list ev = Return (out_object_list out)
  /\ c' = set_head_tilt (out_head_tilt out) c.
Proof.
  unfold wrap_output. intros H.
  apply bind_returns in H as (self & s1 & Hself & H).
  unfold get_self in Hself. injection Hself as <- <-. cbn [fst] in H.
  apply bind_returns in H as ([] & s2 & H2 & H).
  apply kept_controller in H2; [|keeps_controller_steps]. cbn [fst] in H2.
  apply bind_returns in H as ([[image depth] mask] & s3 & H3 & H).
  apply kept_controller in H3; [|apply controller_save_images].
  apply bind_returns in H as (al & s4 & H4 & H).
  apply lift_returns in H4 as (Hal & ->).
  apply bind_returns in H as (ht & s5 & H5 & H).
  apply lift_returns in H5 as (Hht & ->).
  apply bind_returns in H as (ol & s6 & H6 & H).
  apply lift_returns in H6 as (Hol & ->).
  apply bind_returns in H as (st & s7 & H7 & H).
  apply kept_controller in H7; [|apply controller_retrieve_return_status].
  apply bind_returns in H as ([] & s8 & H8 & H).
  unfold update_self in H8. injection H8 as <-.
  apply bind_returns in H as ([] & s9 & H9 & H).
  apply kept_controller in H9; [|keeps_controller_steps].
  apply bind_returns in H as ([] & s10 & H10 & H).
  apply kept_controller in H10; [|keeps_controller_steps].
  injection H as <- Hs.
  cbn [out_step_number out_goal out_pose out_action_list out_head_tilt
       out_object_list].
  repeat split; try assumption.
  rewrite Hs in H10. cbn [fst] in *.
  rewrite H10, H9, H7, H3, H2. reflexivity.
Qed.

(** When the action list is found but the camera horizon is not,
    [wrap_output] raises what the lookup raised and leaves the
    controller, cached head tilt included, as it was. *)
Lemma wrap_output_head_tilt_failure {E : Collaborators} (ev : scene_event)
    (c : controller) (w : world) (al : pyval) (e : exn) :
  retrieve_action_list (goal c) (step_number c) = Return al ->
  retrieve_head_tilt ev = Raise e ->
  exists w',
    wrap_output ev (c, w) = (Raise e, (c, w'))
    /\ sim_calls w' = sim_calls w.
Proof.
  intros Hal Hht.
  unfold wrap_output, save_images, write_file, when.
  unfold mbind, M_bind, mret, M_ret, get_self, update_world, lift.
  cbn [fst snd]. rewrite Hal, Hht.
  destruct (debug_files_on c) eqn:Hfiles;
    cbn -[output_path debug_files_on]; rewrite ?Hfiles;
    cbn -[output_path debug_files_on]; eexists; split; reflexivity.
Qed.

(** [step] returns None only when the guard refuses the call: a call
    the guard lets through returns an output or raises. *)
Theorem none_only_when_refused {E : Collaborators} (action : string)
    (kwargs : gmap string pyval) (c : controller) (w : world) :
  fst (step action kwargs (c, w)) = Return None <->
  past_last_step c = Return true.
Proof.
  split.
  - rewrite step_unfold.
    destruct (past_last_step c) as [[|]|e]; [reflexivity| |intros H; discriminate H].
    cbv zeta. intros H. exfalso.
    destruct (action_in _ ACTION_LIST); rewrite perform_unfold in H;
      cbv zeta in H;
      destruct (bind_keywords _) as [[]|e]; try discriminate H;
      destruct (ai2thor_step _ _) as [ev|e]; try discriminate H;
      destruct (wrap_output ev _) as [[out|e] s]; discriminate H.
  - intros Hpast. rewrite (step_refused action kwargs c w Hpast).
    reflexivity.
Qed.

(** The output an accepted call returns carries the incremented
    counter, which is also the counter the controller is left with, the
    goal of the scene, and the action list of the goal for the
    incremented counter, that is for the call to come; its head tilt is
    the one the controller caches. *)
Theorem step_output_carries_counter {E : Collaborators} (action : string)
    (kwargs : gmap string pyval) (c c' : controller) (w w' : world)
    (out : MCS_Step_Output) :
  step action kwargs (c, w) = (Return (Some out), (c', w')) ->
  out_step_number out = S (step_number c)
  /\ step_number c' = S (step_number c)
  /\ out_goal out = goal c
  /\ goal c' = goal c
  /\ head_tilt c' = out_head_tilt out
  /\ retrieve_action_list (goal c) (S (step_number c))
     = Return (out_action_list out).
Proof.
  rewrite step_unfold.
  destruct (past_last_step c) as [[|]|e]; try (intros H; discriminate H).
  cbv zeta. intros H.
  assert (Hwrap : exists ev w1,
            wrap_output ev (set_step_number (step_number c + 1) c, w1)
            = (Return out, (c', w'))).
  { destruct (action_in _ ACTION_LIST); rewrite perform_unfold in H;
      cbv zeta in H;
      destruct (bind_keywords _) as [[]|e]; try discriminate H;
      destruct (ai2thor_step _ _) as [ev|e]; try discriminate H;
      (destruct (wrap_output ev _) as [[out'|e] s] eqn:Hw;
         [|discriminate H]);
      injection H as -> ->; eexists _, _; exact Hw. }
  destruct Hwrap as (ev & w1 & Hwrap).
  apply wrap_output_returns in Hwrap
    as (Hn & Hg & _ & Hal & _ & _ & ->).
  cbn [step_number goal head_tilt set_head_tilt set_step_number] in *.
  replace (step_number c + 1)%nat with (S (step_number c)) in * by lia.
  repeat split; assumption.
Qed.

(** A call the guard lets through, with a known action and keyword
    arguments that bind, has already incremented the counter and
    called the simulator when something fails afterwards: if the
    simulator raises, or if its answer lacks the camera horizon while
    the action list of the goal is found, [step] raises that exception,
    the counter stays incremented, the cached head tilt is the old one
    and the call stays recorded. *)
Theorem step_fails_after_counting {E : Collaborators} (action : string)
    (kwargs : gmap string pyval) (c : controller) (w : world) (e : exn) :
  let settled := split_command action kwargs in
  let data := step_data_sent (fst settled) (snd settled) c w in
  past_last_step c = Return false ->
  fst settled ∈ ACTION_LIST ->
  bind_keywords (snd settled) = Return tt ->
  ai2thor_step (sim_calls w) data = Raise e
  \/ (exists ev al,
        ai2thor_step (sim_calls w) data = Return ev
        /\ retrieve_action_list (goal c) (step_number c + 1) = Return al
        /\ retrieve_head_tilt ev = Raise e) ->
  fst (step action kwargs (c, w)) = Raise e
  /\ fst (snd (step action kwargs (c, w)))
     = set_step_number (step_number c + 1) c
  /\ sim_calls (snd (snd (step action kwargs (c, w))))
     = (sim_calls w ++ [data])%list.
Proof.
  intros settled data Hpast Hknown Hbind Hfail.
  rewrite step_unfold, Hpast. cbv zeta. unfold action_in.
  rewrite (bool_decide_eq_true_2 _ Hknown).
  rewrite perform_unfold. cbv zeta. fold settled. rewrite Hbind.
  change (step_data_sent settled.1 settled.2
            (set_step_number (step_number c + 1) c) w) with data.
  set (w3 := if debug_files_on _ then _ else _).
  assert (Hcalls : sim_calls w3 = sim_calls w).
  { subst w3. destruct (debug_files_on _), (enable_noise _),
      (debug_to_terminal _); reflexivity. }
  destruct Hfail as [-> | (ev & al & -> & Hal & Hht)].
  - cbn [fst snd sim_calls add_call]. rewrite Hcalls. repeat split.
  - destruct (wrap_output_head_tilt_failure ev
                (set_step_number (step_number c + 1) c)
                (add_call data w3) al e Hal Hht) as (w' & -> & Hsim).
    cbn [fst snd]. rewrite Hsim. cbn [sim_calls add_call].
    rewrite Hcalls. repeat split.
Qed.

(** ** Starting a scene *)

(** When the goal cannot be resolved, [start_scene] raises what
    [retrieve_goal] raised and calls no simulator; the scene and the
    counter have been replaced by then, but the goal is still the one
    of the scene before. *)
Theorem start_scene_goal_failure {E : Collaborators} (config_data : pyval)
    (c : controller) (w : world) (e : exn) :
  retrieve_goal config_data = Raise e ->
  start_scene config_data (c, w)
  = (Raise e, (set_step_number 0 (set_current_scene config_data c), w)).
Proof.
  intros Hgoal. unfold start_scene.
  unfold mbind, M_bind, update_self, lift. cbn [fst snd].
  rewrite Hgoal. reflexivity.
Qed.

(** With debug output to files, a configuration without the key "name"
    makes [start_scene] raise KeyError before the simulator is called;
    the goal of the new scene is installed by then. *)
Theorem start_scene_name_missing {E : Collaborators}
    (d : gmap string pyval) (c : controller) (w : world) (g : MCS_Goal) :
  debug_to_file c = true ->
  d !! "name" = None ->
  retrieve_goal (PDict d) = Return g ->
  start_scene (PDict d) (c, w)
  = (Raise KeyError,
     (set_goal (Some g) (set_step_number 0 (set_current_scene (PDict d) c)),
      w)).
Proof.
  intros Hdebug Hname Hgoal. unfold start_scene.
  unfold mbind, M_bind, update_self, lift, get_self. cbn [fst snd].
  rewrite Hgoal.
  cbn [debug_to_file set_goal set_step_number set_current_scene py_getitem].
  rewrite Hdebug, Hname. reflexivity.
Qed.

(** Without debug output to files, and when the goal resolves,
    [start_scene] resets the counter to 0, installs the scene and its
    goal, and makes exactly one simulator call: Initialize, with the
    configuration as sceneConfig.  The output, when there is one, has
    step number 0. *)
Theorem start_scene_initializes {E : Collaborators} (config_data : pyval)
    (c : controller) (w : world) (g : MCS_Goal) :
  debug_to_file c = false ->
  retrieve_goal config_data = Return g ->
  let result := start_scene config_data (c, w) in
  sim_calls (snd (snd result))
  = (sim_calls w ++ [step_data_of "Initialize" (SceneConfig config_data)])%list
  /\ step_number (fst (snd result)) = 0%nat
  /\ goal (fst (snd result)) = Some g
  /\ current_scene (fst (snd result)) = config_data
  /\ (forall out, fst result = Return out ->
        out_step_number out = 0%nat /\ out_goal out = Some g).
Proof.
  intros Hdebug Hgoal result. subst result.
  set (c1 := set_goal (Some g)
               (set_step_number 0 (set_current_scene config_data c))).
  set (data := step_data_of "Initialize" (SceneConfig config_data)).
  assert (Hrun : start_scene config_data (c, w)
                 = match ai2thor_step (sim_calls w) data with
                   | Raise e => (Raise e, (c1, add_call data w))
                   | Return ev => wrap_output ev (c1, add_call data w)
                   end).
  { unfold start_scene, wrap_step, controller_step, write_file, when.
    unfold mbind, M_bind, mret, M_ret, update_self, update_world, lift,
      get_self, get_world.
    cbn [fst snd]. rewrite Hgoal.
    cbn [debug_to_file set_goal set_step_number set_current_scene].
    rewrite Hdebug. cbn -[wrap_output debug_files_on output_path].
    assert (Hfiles : debug_files_on c1 = false).
    { unfold debug_files_on, c1.
      cbn [debug_to_file set_goal set_step_number set_current_scene].
      rewrite Hdebug. reflexivity. }
    fold c1. rewrite Hfiles. cbn -[wrap_output]. reflexivity. }
  rewrite Hrun.
  destruct (ai2thor_step (sim_calls w) data) as [ev | e].
  - pose proof (keeps_wrap_output ev (c1, add_call data w))
      as (Hself & Hsim & _).
    destruct (wrap_output ev (c1, add_call data w)) as [o [c' w']] eqn:Hw.
    cbn [fst snd] in *. rewrite Hsim, Hself.
    do 4 (split; [reflexivity|]).
    intros step_output ->.
    apply wrap_output_returns in Hw as (Hn & Hg & _).
    split; assumption.
  - cbn [fst snd]. do 4 (split; [reflexivity|]).
    intros step_output H. discriminate H.
Qed.

(** ** The return status: the cases that print nothing *)

(** A status that is the name of a member of the enum comes back as it
    is, and nothing is printed. *)
Theorem known_status_returned {E : Collaborators} (ev : scene_event)
    (s : controller * world) (d : gmap string pyval) (name : string) :
  ev_metadata ev = PDict d ->
  d !! "lastActionStatus" = Some (PStr name) ->
  name <> "" ->
  name ∈ MCS_Return_Status_names ->
  retrieve_return_status ev s = (Return name, s).
Proof.
  intros Hmeta Hstatus Hne Hknown.
  unfold retrieve_return_status. rewrite Hmeta. simpl.
  rewrite Hstatus. simpl.
  destruct (String.eqb_spec name "") as [-> | _]; [contradiction|]. simpl.
  rewrite (bool_decide_eq_true_2 _ Hknown). reflexivity.
Qed.

(** A status that is not a non-empty string (None, the empty string, a
    number, a boolean, a list, a dictionary) gives UNDEFINED, and
    nothing is printed: either it is false and no lookup is made, or
    the exception met on the way is dropped. *)
Theorem odd_status_undefined_silently {E : Collaborators} (ev : scene_event)
    (s : controller * world) (d : gmap string pyval) (v : pyval) :
  ev_metadata ev = PDict d ->
  d !! "lastActionStatus" = Some v ->
  (forall name, v = PStr name -> name = "") ->
  retrieve_return_status ev s = (Return "UNDEFINED", s).
Proof.
  intros Hmeta Hstatus Hodd.
  unfold retrieve_return_status. rewrite Hmeta. simpl.
  rewrite Hstatus. simpl.
  destruct v as [| b | q | name | l | d']; simpl.
  - reflexivity.
  - destruct b; reflexivity.
  - destruct (Qeq_bool q 0); reflexivity.
  - rewrite (Hodd name eq_refl). reflexivity.
  - destruct (bool_decide (length l = 0%nat)); reflexivity.
  - destruct (bool_decide (size d' = 0%nat)); reflexivity.
Qed.

(** ** The goal: a goal entry that is no mapping *)

(** A configuration whose "goal" is None (JSON null), a boolean or a
    number makes [retrieve_goal] raise TypeError; an empty list or an
    empty string in its place gives the goal of all defaults. *)
Theorem retrieve_goal_not_a_mapping (scene : gmap string pyval) (v : pyval) :
  scene !! "goal" = Some v ->
  (v = PNone \/ (exists b, v = PBool b) \/ (exists q, v = PNum q) ->
   retrieve_goal (PDict scene) = Raise TypeError)
  /\ (v = PList [] \/ v = PStr "" ->
      retrieve_goal (PDict scene)
      = Return {| goal_action_list := PNone;
                  goal_info_list := PList [];
                  goal_last_step := PNone;
                  goal_task_list := PList [];
                  goal_type_list := PList [];
                  goal_metadata := PDict ∅ |}).
Proof.
  intros Hgoal. split.
  - intros [-> | [[b ->] | [q ->]]];
      unfold retrieve_goal; simpl; rewrite Hgoal; reflexivity.
  - intros [-> | ->];
      unfold retrieve_goal; simpl; rewrite Hgoal; reflexivity.
Qed.

(** ** The action list: entries that are no lists, goals without one *)

(** When the entry of the action list for the step is None, a boolean
    or a number, or when the action list itself is a boolean or a
    number, [retrieve_action_list] raises TypeError. *)
Theorem retrieve_action_list_ill_typed {E : Collaborators} (g : MCS_Goal)
    (step_number : nat) :
  let scalar v := v = PNone \/ (exists b, v = PBool b) \/ (exists q, v = PNum q) in
  (forall l v,
      goal_action_list g = PList l ->
      l !! step_number = Some v ->
      scalar v ->
      retrieve_action_list (Some g) step_number = Raise TypeError)
  /\ ((exists b, goal_action_list g = PBool b)
      \/ (exists q, goal_action_list g = PNum q) ->
      retrieve_action_list (Some g) step_number = Raise TypeError).
Proof.
  intros scalar. split.
  - intros l v Hlist Hentry Hscalar.
    unfold retrieve_action_list. rewrite Hlist. simpl.
    pose proof (lookup_lt_Some _ _ _ Hentry) as Hlt.
    apply Nat.ltb_lt in Hlt. rewrite Hlt, Hentry. simpl.
    destruct Hscalar as [-> | [[b ->] | [q ->]]]; reflexivity.
  - intros [[b Hb] | [q Hq]]; unfold retrieve_action_list;
      [rewrite Hb | rewrite Hq]; reflexivity.
Qed.

(** The goal resolved from a configuration without "goal", or whose
    goal has no "action_list", permits the full vocabulary at every
    step. *)
Theorem no_action_list_permits_everything {E : Collaborators}
    (scene : gmap string pyval) (g : MCS_Goal) (step_number : nat) :
  scene !! "goal" = None
  \/ (exists gd, scene !! "goal" = Some (PDict gd)
        /\ gd !! "action_list" = None) ->
  retrieve_goal (PDict scene) = Return g ->
  retrieve_action_list (Some g) step_number = Return ACTION_LIST_value.
Proof.
  intros Hscene Hgoal.
  assert (Hnone : goal_action_list g = PNone).
  { destruct Hscene as [Hno | (gd & Hgd & Hal)].
    - rewrite (retrieve_goal_without_goal scene Hno) in Hgoal.
      injection Hgoal as <-. reflexivity.
    - rewrite (retrieve_goal_of_dict scene gd Hgd), Hal in Hgoal.
      destruct (gd !! "type_list");
        [destruct (gd !! "info_list"), (gd !! "task_list");
           try discriminate Hgoal|];
        injection Hgoal as <-; reflexivity. }
  unfold retrieve_action_list. rewrite Hnone. reflexivity.
Qed.

(** ** The reconstruction of the objects *)

Lemma outcome_bind_returns {A B} (m : outcome A) (f : A -> outcome B) b :
  m ≫= f = Return b -> exists a, m = Return a /\ f a = Return b.
Proof.
  destruct m as [a | e]; intros H.
  - exists a. split; [reflexivity | exact H].
  - discriminate H.
Qed.

(** [mapM] returns exactly when the function returns on every element,
    and then holds the results in order. *)
Lemma mapM_returns {A B} (f : A -> outcome B) (l : list A) (k : list B) :
  mapM f l = Return k <-> Forall2 (fun x y => f x = Return y) l k.
Proof.
  revert k. induction l as [|x l IH]; intros k; simpl.
  - split.
    + intros H. injection H as <-. constructor.
    + intros H. inversion H. reflexivity.
  - split.
    + intros H.
      apply outcome_bind_returns in H as (y & Hy & H).
      apply outcome_bind_returns in H as (k' & Hk' & H).
      injection H as <-. constructor; [exact Hy | apply IH; exact Hk'].
    + intros H. inversion H as [|? y ? k' Hy Hk']; subst.
      rewrite Hy. simpl. apply IH in Hk'. rewrite Hk'. reflexivity.
Qed.

(** [mapM] raises what the function raises on the first element it
    fails on. *)
Lemma mapM_raises {A B} (f : A -> outcome B) (before after : list A)
    (x : A) (e : exn) :
  Forall (fun y => raised (f y) = false) before ->
  f x = Raise e ->
  mapM f (before ++ x :: after) = Raise e.
Proof.
  intros Hbefore Hx. induction Hbefore as [|y before Hy _ IH]; simpl.
  - rewrite Hx. reflexivity.
  - destruct (f y) as [b | e']; [|discriminate Hy]. simpl.
    rewrite IH. reflexivity.
Qed.

Lemma string_leb_trans (a b c : string) :
  String.leb a b = true -> String.leb b c = true -> String.leb a c = true.
Proof.
  unfold String.leb. intros Hab Hbc.
  destruct (String.compare a b) eqn:Eab; [| |discriminate Hab];
    destruct (String.compare b c) eqn:Ebc; try discriminate Hbc.
  - apply String.compare_eq_iff in Eab. subst. rewrite Ebc. reflexivity.
  - apply String.compare_eq_iff in Eab. subst. rewrite Ebc. reflexivity.
  - apply String.compare_eq_iff in Ebc. subst. rewrite Eab. reflexivity.
  - apply String_as_OT.cmp_lt in Eab, Ebc.
    pose proof (String_as_OT.lt_trans _ _ _ Eab Ebc) as Hac.
    apply String_as_OT.cmp_lt in Hac. unfold String_as_OT.cmp in Hac.
    rewrite Hac. reflexivity.
Qed.

Lemma string_ltb_leb (a b : string) :
  String.ltb a b = true -> String.leb a b = true.
Proof.
  unfold String.ltb, String.leb.
  destruct (String.compare a b); intros H; first [reflexivity | discriminate H].
Qed.

Lemma string_not_ltb_leb (a b : string) :
  String.ltb a b = false -> String.leb b a = true.
Proof.
  unfold String.ltb, String.leb. rewrite (String.compare_antisym b a).
  destruct (String.compare a b); simpl; intros H;
    first [reflexivity | discriminate H].
Qed.

Section ObjectProperties.
Context {O : ObjectCollaborators}.

Lemma insert_by_uuid_permutation (x : MCS_Object) (l : list MCS_Object) :
  Objects.insert_by_uuid x l ≡ₚ x :: l.
Proof.
  induction l as [|y l IH]; simpl; [reflexivity|].
  destruct (String.ltb _ _); [reflexivity|].
  rewrite IH. apply Permutation_swap.
Qed.

Lemma sorted_by_uuid_permutation (l : list MCS_Object) :
  Objects.sorted_by_uuid l ≡ₚ l.
Proof.
  unfold Objects.sorted_by_uuid.
  assert (Hgen : forall acc,
            foldl (fun sorted object => Objects.insert_by_uuid object sorted)
              acc l ≡ₚ acc ++ l).
  { induction l as [|x l IH]; intros acc; simpl.
    - rewrite app_nil_r. reflexivity.
    - rewrite IH, insert_by_uuid_permutation.
      rewrite (Permutation_middle acc l x). reflexivity. }
  rewrite Hgen. reflexivity.
Qed.

Lemma insert_by_uuid_sorted (x : MCS_Object) (l : list MCS_Object) :
  StronglySorted Objects.key_le l ->
  StronglySorted Objects.key_le (Objects.insert_by_uuid x l).
Proof.
  intros Hsorted. induction Hsorted as [|y l Hl IH Hy]; simpl.
  - repeat constructor.
  - destruct (String.ltb _ _) eqn:Hlt.
    + constructor; [constructor; assumption|].
      apply string_ltb_leb in Hlt. unfold Objects.key_le in *.
      constructor; [exact Hlt|].
      eapply Forall_impl; [exact Hy|].
      intros z Hz. exact (string_leb_trans _ _ _ Hlt Hz).
    + constructor; [exact IH|].
      rewrite insert_by_uuid_permutation.
      constructor; [|exact Hy].
      apply string_not_ltb_leb. exact Hlt.
Qed.

Lemma sorted_by_uuid_sorted (l : list MCS_Object) :
  StronglySorted Objects.key_le (Objects.sorted_by_uuid l).
Proof.
  unfold Objects.sorted_by_uuid.
  assert (Hgen : forall acc,
            StronglySorted Objects.key_le acc ->
            StronglySorted Objects.key_le
              (foldl (fun sorted object =>
                        Objects.insert_by_uuid object sorted) acc l)).
  { induction l as [|x l IH]; intros acc Hacc; simpl.
    - exact Hacc.
    - apply IH, insert_by_uuid_sorted, Hacc. }
  apply Hgen. constructor.
Qed.

End ObjectProperties.

Section ObjectOutputs.
Context {O : ObjectCollaborators}.

(** What an output of [retrieve_object_output] was built from. *)
Lemma retrieve_object_output_returns (object_metadata : pyval)
    (object_id_to_color : gmap string pyval) (object : MCS_Object) :
  Objects.retrieve_object_output object_metadata object_id_to_color
  = Return object ->
  (exists object_id rgb r g b,
      py_getitem object_metadata "objectId" = Return (PStr object_id)
      /\ object_id_to_color !! object_id = Some rgb
      /\ py_index rgb 0 = Return r
      /\ py_index rgb 1 = Return g
      /\ py_index rgb 2 = Return b
      /\ obj_uuid object = PStr object_id
      /\ obj_color object
         = PDict (<["r" := r]> (<["g" := g]> (<["b" := b]> ∅))))
  /\ (exists salient materials,
        py_getitem object_metadata "salientMaterials" = Return salient
        /\ Objects.salient_material_list salient = Return materials
        /\ obj_material_list object
           = if (length materials =? 0)%nat then PNone
             else PList (PStr <$> materials))
  /\ (exists distanceXZ,
        py_getitem object_metadata "distanceXZ" = Return distanceXZ
        /\ Objects.py_div distanceXZ MAX_MOVE_DISTANCE
           = Return (obj_distance object))
  /\ py_getitem object_metadata "isPickedUp" = Return (obj_held object)
  /\ (exists visibleInCamera,
        py_getitem object_metadata "visibleInCamera" = Return visibleInCamera
        /\ obj_visible object
           = if py_truthy visibleInCamera then visibleInCamera
             else obj_held object)
  /\ py_getitem object_metadata "direction" = Return (obj_direction object)
  /\ py_getitem object_metadata "mass" = Return (obj_mass object)
  /\ py_getitem object_metadata "points" = Return (obj_point_list object).
Proof.
  unfold Objects.retrieve_object_output. intros H.
  apply outcome_bind_returns in H as (salient & Hsalient & H).
  apply outcome_bind_returns in H as (materials & Hmaterials & H).
  apply outcome_bind_returns in H as (objectId & Hid & H).
  apply outcome_bind_returns in H as (rgb & Hrgb & H).
  apply outcome_bind_returns in H as (uuid & Huuid & H).
  apply outcome_bind_returns in H as (r & Hr & H).
  apply outcome_bind_returns in H as (g & Hg & H).
  apply outcome_bind_returns in H as (b & Hb & H).
  apply outcome_bind_returns in H as (direction & Hdirection & H).
  apply outcome_bind_returns in H as (distanceXZ & Hxz & H).
  apply outcome_bind_returns in H as (distance & Hdistance & H).
  apply outcome_bind_returns in H as (held & Hheld & H).
  apply outcome_bind_returns in H as (mass & Hmass & H).
  apply outcome_bind_returns in H as (points & Hpoints & H).
  apply outcome_bind_returns in H as (seen & Hseen & H).
  apply outcome_bind_returns in H as (visible & Hvisible & H).
  injection H as <-. cbn [obj_uuid obj_color obj_material_list obj_distance
    obj_held obj_visible obj_direction obj_mass obj_point_list].
  rewrite Hid in Huuid. injection Huuid as <-.
  assert (Hkey : exists object_id,
            objectId = PStr object_id
            /\ object_id_to_color !! object_id = Some rgb).
  { unfold Objects.color_of in Hrgb.
    destruct objectId as [| | | object_id | |]; try discriminate Hrgb.
    exists object_id. split; [reflexivity|].
    destruct (object_id_to_color !! object_id); [|discriminate Hrgb].
    injection Hrgb as ->. reflexivity. }
  destruct Hkey as (object_id & -> & Hcolor).
  split; [exists object_id, rgb, r, g, b; repeat split; assumption|].
  split; [exists salient, materials; repeat split; assumption|].
  split; [exists distanceXZ; split; assumption|].
  split; [exact Hheld|].
  split.
  { exists seen. split; [exact Hseen|].
    destruct (py_truthy seen).
    - injection Hvisible as <-. reflexivity.
    - rewrite Hheld in Hvisible. injection Hvisible as <-. reflexivity. }
  repeat split; assumption.
Qed.

(** The uuid of an output is the object id of the metadata, which is a
    string found in the table of colors, and its color holds under r,
    g and b the first three entries of what the table has for that
    id. *)
Theorem object_uuid_and_color (object_metadata : pyval)
    (object_id_to_color : gmap string pyval) (object : MCS_Object) :
  Objects.retrieve_object_output object_metadata object_id_to_color
  = Return object ->
  exists object_id rgb r g b,
    py_getitem object_metadata "objectId" = Return (PStr object_id)
    /\ obj_uuid object = PStr object_id
    /\ object_id_to_color !! object_id = Some rgb
    /\ py_index rgb 0 = Return r
    /\ py_index rgb 1 = Return g
    /\ py_index rgb 2 = Return b
    /\ obj_color object
       = PDict (<["r" := r]> (<["g" := g]> (<["b" := b]> ∅))).
Proof.
  intros H.
  apply retrieve_object_output_returns in H
    as ((object_id & rgb & r & g & b & Hid & Hcolor & Hr & Hg & Hb
         & Huuid & Hrgb) & _).
  exists object_id, rgb, r, g, b. repeat split; assumption.
Qed.

(** The material list of an output is never an empty list: it is None,
    or a non-empty list of strings that all pass the material check;
    and it is None when the salient materials are None. *)
Theorem object_materials_none_or_checked (object_metadata : pyval)
    (object_id_to_color : gmap string pyval) (object : MCS_Object) :
  Objects.retrieve_object_output object_metadata object_id_to_color
  = Return object ->
  (obj_material_list object = PNone
   \/ exists materials,
        materials <> []
        /\ obj_material_list object = PList (PStr <$> materials)
        /\ Forall (fun m => verify_material_enum_string m = true) materials)
  /\ (py_getitem object_metadata "salientMaterials" = Return PNone ->
      obj_material_list object = PNone).
Proof.
  intros H.
  apply retrieve_object_output_returns in H
    as (_ & (salient & materials & Hsalient & Hlist & Hmaterials) & _).
  split.
  - destruct materials as [|m materials]; [left; exact Hmaterials|].
    right. exists (m :: materials). split; [discriminate|].
    split; [exact Hmaterials|].
    unfold Objects.salient_material_list in Hlist.
    assert (Hfiltered : exists uppers,
              m :: materials
              = List.filter verify_material_enum_string uppers).
    { destruct salient; try discriminate Hlist;
        apply outcome_bind_returns in Hlist as (items & _ & Hlist);
        apply outcome_bind_returns in Hlist as (uppers & _ & Hlist);
        injection Hlist as Hlist; exists uppers; symmetry; exact Hlist. }
    destruct Hfiltered as (uppers & ->).
    apply List.Forall_forall. intros x Hx.
    apply List.filter_In in Hx. apply Hx.
  - intros Hnone. rewrite Hnone in Hsalient. injection Hsalient as <-.
    injection Hlist as <-. exact Hmaterials.
Qed.

(** An object that is held is visible: the visible flag of an output is
    visibleInCamera when that is true, and isPickedUp otherwise.  Its
    distance is distanceXZ divided by the distance of one move, that is
    twice distanceXZ. *)
Theorem object_visible_and_distance (object_metadata : pyval)
    (object_id_to_color : gmap string pyval) (object : MCS_Object) :
  Objects.retrieve_object_output object_metadata object_id_to_color
  = Return object ->
  py_truthy (obj_visible object)
  = (match py_getitem object_metadata "visibleInCamera" with
     | Return seen => py_truthy seen
     | Raise _ => false
     end || py_truthy (obj_held object))
  /\ (forall q,
        py_getitem object_metadata "distanceXZ" = Return (PNum q) ->
        exists d, obj_distance object = PNum d /\ d == 2 * q).
Proof.
  intros H.
  apply retrieve_object_output_returns in H
    as (_ & _ & (distanceXZ & Hxz & Hdistance) & Hheld
        & (seen & Hseen & Hvisible) & _).
  split.
  - rewrite Hseen, Hvisible. destruct (py_truthy seen) eqn:Hs.
    + rewrite Hs. reflexivity.
    + reflexivity.
  - intros q Hq. rewrite Hq in Hxz. injection Hxz as <-.
    injection Hdistance as <-. eexists. split; [reflexivity|].
    unfold MAX_MOVE_DISTANCE. field.
Qed.

(** The list of objects comes back sorted by uuid: the uuids are
    strings, and each one is at most every one after it. *)
Theorem object_list_sorted_by_uuid (metadata : pyval)
    (object_id_to_color : gmap string pyval) (objects : list MCS_Object) :
  Objects.retrieve_object_list metadata object_id_to_color = Return objects ->
  StronglySorted Objects.uuid_le objects.
Proof.
  unfold Objects.retrieve_object_list. intros H.
  apply outcome_bind_returns in H as (value & _ & H).
  apply outcome_bind_returns in H as (items & _ & H).
  apply outcome_bind_returns in H as (outputs & Houtputs & H).
  injection H as <-.
  assert (Hstrings : Forall (fun o => exists s, obj_uuid o = PStr s)
                       (Objects.sorted_by_uuid outputs)).
  { rewrite sorted_by_uuid_permutation.
    apply mapM_returns in Houtputs.
    induction Houtputs as [|om o items outputs Ho _ IH]; constructor.
    - apply retrieve_object_output_returns in Ho
        as ((object_id & _ & _ & _ & _ & _ & _ & _ & _ & _ & Huuid & _) & _).
      exists object_id. exact Huuid.
    - exact IH. }
  pose proof (sorted_by_uuid_sorted outputs) as Hsorted.
  induction Hsorted as [|o l Hl IH Ho]; constructor.
  - apply IH. inversion Hstrings; assumption.
  - inversion Hstrings as [|? ? [so Hso] Hrest]; subst.
    clear IH Hl Hstrings.
    induction Ho as [|o' l Hoo' _ IH]; constructor.
    + inversion Hrest as [|? ? [so' Hso'] _]; subst.
      exists so, so'. repeat split; try assumption.
      unfold Objects.key_le, Objects.uuid_key in Hoo'.
      rewrite Hso, Hso' in Hoo'. exact Hoo'.
    + apply IH. inversion Hrest; assumption.
Qed.

(** Every object of the metadata gives exactly one output of the list:
    the list is a rearrangement of the outputs of the objects, none
    dropped and none added. *)
Theorem object_list_rearranges_outputs (metadata : pyval)
    (object_id_to_color : gmap string pyval) (items : list pyval)
    (objects : list MCS_Object) :
  py_getitem metadata "objects" = Return (PList items) ->
  Objects.retrieve_object_list metadata object_id_to_color = Return objects ->
  exists outputs,
    Forall2 (fun object_metadata output =>
               Objects.retrieve_object_output object_metadata
                 object_id_to_color = Return output) items outputs
    /\ objects ≡ₚ outputs
    /\ length objects = length items.
Proof.
  intros Hitems. unfold Objects.retrieve_object_list. rewrite Hitems.
  simpl. intros H.
  apply outcome_bind_returns in H as (outputs & Houtputs & H).
  injection H as <-. apply mapM_returns in Houtputs.
  exists outputs. split; [exact Houtputs|]. split.
  - apply sorted_by_uuid_permutation.
  - rewrite (Permutation_length (sorted_by_uuid_permutation outputs)).
    symmetry. exact (Forall2_length _ _ _ Houtputs).
Qed.

(** One object that cannot be rebuilt fails the whole list with its
    exception, the first such object in the order of the metadata
    deciding; so does, with KeyError, an object whose id has no color
    in the table. *)
Theorem object_list_fails_with_first_failure (metadata : pyval)
    (object_id_to_color : gmap string pyval)
    (before after : list pyval) (object_metadata : pyval) (e : exn) :
  py_getitem metadata "objects"
  = Return (PList (before ++ object_metadata :: after)) ->
  Forall (fun om =>
            raised (Objects.retrieve_object_output om object_id_to_color)
            = false) before ->
  Objects.retrieve_object_output object_metadata object_id_to_color
  = Raise e ->
  Objects.retrieve_object_list metadata object_id_to_color = Raise e.
Proof.
  intros Hitems Hbefore Hfails.
  unfold Objects.retrieve_object_list. rewrite Hitems. simpl.
  rewrite (mapM_raises _ before after object_metadata e Hbefore Hfails).
  reflexivity.
Qed.

(** An object whose salient materials are found and rebuilt, and whose
    id is a string without a color in the table, raises KeyError. *)
Lemma object_without_color (om : gmap string pyval)
    (object_id_to_color : gmap string pyval) (salient : pyval)
    (materials : list string) (object_id : string) :
  om !! "salientMaterials" = Some salient ->
  Objects.salient_material_list salient = Return materials ->
  om !! "objectId" = Some (PStr object_id) ->
  object_id_to_color !! object_id = None ->
  Objects.retrieve_object_output (PDict om) object_id_to_color
  = Raise KeyError.
Proof.
  intros Hsalient Hmaterials Hid Hcolor.
  unfold Objects.retrieve_object_output. simpl.
  rewrite Hsalient. simpl. rewrite Hmaterials. simpl.
  rewrite Hid. simpl. rewrite Hcolor. reflexivity.
Qed.

End ObjectOutputs.

(** ** Further runs with the sample collaborators *)

Section MoreSampleRuns.
#[local] Existing Instance Sample.collaborators.

Lemma translation_idempotent_witness :
  mcs_action_to_ai2thor_action (mcs_action_to_ai2thor_action "OpenObject")
  = mcs_action_to_ai2thor_action "OpenObject"
  /\ mcs_action_to_ai2thor_action "MoveAhead" = "MoveAhead".
Proof.
  assert (Hclose : CLOSE_OBJECT ∉ renamed_actions) by by_evaluation.
  assert (Hdrop : DROP_OBJECT ∉ renamed_actions) by by_evaluation.
  assert (Hopen : OPEN_OBJECT ∉ renamed_actions) by by_evaluation.
  destruct (translation_idempotent "OpenObject" Hclose Hdrop Hopen)
    as (Hidem & _).
  destruct (translation_idempotent "MoveAhead" Hclose Hdrop Hopen)
    as (_ & Hsame).
  split; [exact Hidem|].
  apply Hsame; intros H; discriminate H.
Defined.

Lemma step_guard_failure_witness :
  step "MoveAhead" ∅ (on_init false false false, Sample.quiet_world)
  = (Raise AttributeError, (on_init false false false, Sample.quiet_world))
  /\ step "MoveAhead" ∅ (MoreSamples.in_text_scene, Sample.quiet_world)
     = (Raise TypeError, (MoreSamples.in_text_scene, Sample.quiet_world)).
Proof.
  split.
  - apply (proj1 (step_guard_failure "MoveAhead" ∅
                    (on_init false false false) Sample.quiet_world)).
    reflexivity.
  - apply (proj2 (step_guard_failure "MoveAhead" ∅
                    MoreSamples.in_text_scene Sample.quiet_world)
             MoreSamples.goal_text_last_step).
    + reflexivity.
    + left. exists "2". reflexivity.
Defined.

Lemma step_calls_keep_fixed_fields_witness :
  Forall fixed_fields
    (sim_calls (snd (snd (step "MoveAhead" ∅
                            (fst Sample.started, snd Sample.started))))).
Proof.
  apply (step_calls_keep_fixed_fields "MoveAhead" ∅
           (fst Sample.started) (snd Sample.started)).
  vm_compute. repeat constructor.
Defined.

Lemma known_action_translated_after_validation_witness :
  exists data,
    sim_calls (snd (snd (step "OpenObject" (<["amount" := PNum (3 # 4)]> ∅)
                           (fst Sample.started, snd Sample.started))))
    = (sim_calls (snd Sample.started) ++ [data])%list
    /\ sd_action data = "MCSOpenObject"
    /\ exists params,
         sd_payload data = Params params
         /\ moveMagnitude params = 3 # 4.
Proof.
  destruct (known_action_translated_after_validation "OpenObject"
              (<["amount" := PNum (3 # 4)]> ∅)
              (fst Sample.started) (snd Sample.started))
    as (data & Hcalls & Haction & Hpayload).
  - vm_compute. reflexivity.
  - by_evaluation.
  - vm_compute. reflexivity.
  - exists data. split; [exact Hcalls|]. split.
    + rewrite Haction. vm_compute. reflexivity.
    + eexists. split; [exact Hpayload|]. vm_compute. reflexivity.
Defined.

Lemma refused_once_refused_forever_witness :
  sim_calls (snd (run_steps [("MoveAhead", ∅); ("Fly", ∅); ("Pass", ∅)]
                    (fst Sample.stepped_thrice, snd Sample.stepped_thrice)))
  = sim_calls (snd Sample.stepped_thrice).
Proof.
  apply (refused_once_refused_forever
           [("MoveAhead", ∅); ("Fly", ∅); ("Pass", ∅)]
           (fst Sample.stepped_thrice) (snd Sample.stepped_thrice)).
  vm_compute. reflexivity.
Defined.

Lemma counter_counts_calls_witness :
  step_number (fst (run_steps [("MoveAhead", ∅); ("Fly", ∅); ("Pass", ∅)]
                      (fst MoreSamples.open_scene,
                       snd MoreSamples.open_scene)))
  = (step_number (fst MoreSamples.open_scene) + 3)%nat.
Proof.
  apply (counter_counts_calls [("MoveAhead", ∅); ("Fly", ∅); ("Pass", ∅)]
           (fst MoreSamples.open_scene) (snd MoreSamples.open_scene)
           MoreSamples.default_goal).
  - vm_compute. reflexivity.
  - reflexivity.
Defined.

Lemma counter_bounded_by_last_step_witness :
  inject_Z (Z.of_nat (step_number (fst (run_steps
     [("MoveAhead", ∅); ("MoveAhead", ∅); ("MoveAhead", ∅);
      ("MoveAhead", ∅); ("MoveAhead", ∅)]
     (fst Sample.started, snd Sample.started))))) <= 2 + 1.
Proof.
  apply (counter_bounded_by_last_step
           [("MoveAhead", ∅); ("MoveAhead", ∅); ("MoveAhead", ∅);
            ("MoveAhead", ∅); ("MoveAhead", ∅)]
           (fst Sample.started) (snd Sample.started)
           MoreSamples.goal_last_step_2 2).
  - vm_compute. reflexivity.
  - reflexivity.
  - vm_compute. intros H. discriminate H.
Defined.

Lemma none_only_when_refused_witness :
  fst (step "MoveAhead" ∅
         (fst Sample.stepped_thrice, snd Sample.stepped_thrice))
  = Return None.
Proof.
  apply (none_only_when_refused "MoveAhead" ∅
           (fst Sample.stepped_thrice) (snd Sample.stepped_thrice)).
  vm_compute. reflexivity.
Defined.

Lemma step_output_carries_counter_witness :
  match step "MoveAhead" ∅ (fst Sample.started, snd Sample.started) with
  | (Return (Some step_output), (c', _)) =>
      out_step_number step_output = 1%nat /\ step_number c' = 1%nat
  | _ => False
  end.
Proof.
  destruct (step "MoveAhead" ∅ (fst Sample.started, snd Sample.started))
    as [[[step_output|] | e] [c' w']] eqn:Hstep.
  - destruct (step_output_carries_counter "MoveAhead" ∅
                (fst Sample.started) c' (snd Sample.started) w'
                step_output Hstep) as (Hout & Hcounter & _).
    split; [exact Hout | exact Hcounter].
  - vm_compute in Hstep. discriminate Hstep.
  - vm_compute in Hstep. discriminate Hstep.
Defined.

Lemma start_scene_goal_failure_witness :
  fst (start_scene MoreSamples.config_type_list_alone
         (fst Sample.stepped_twice, snd Sample.stepped_twice))
  = Raise KeyError
  /\ goal (fst (snd (start_scene MoreSamples.config_type_list_alone
                       (fst Sample.stepped_twice, snd Sample.stepped_twice))))
     = goal (fst Sample.stepped_twice).
Proof.
  rewrite (start_scene_goal_failure MoreSamples.config_type_list_alone
             (fst Sample.stepped_twice) (snd Sample.stepped_twice) KeyError).
  - split; reflexivity.
  - vm_compute. reflexivity.
Defined.

Lemma start_scene_name_missing_witness :
  fst (start_scene (PDict ∅) (on_init true false false, Sample.quiet_world))
  = Raise KeyError.
Proof.
  rewrite (start_scene_name_missing ∅ (on_init true false false)
             Sample.quiet_world MoreSamples.default_goal).
  - reflexivity.
  - reflexivity.
  - reflexivity.
  - vm_compute. reflexivity.
Defined.

Lemma start_scene_initializes_witness :
  sd_action <$> sim_calls (snd (snd (start_scene Sample.config_last_step_2
                                       (fst Sample.fresh, snd Sample.fresh))))
  = ["Initialize"]
  /\ step_number (fst (snd (start_scene Sample.config_last_step_2
                              (fst Sample.fresh, snd Sample.fresh)))) = 0%nat.
Proof.
  destruct (start_scene_initializes Sample.config_last_step_2
              (fst Sample.fresh) (snd Sample.fresh)
              MoreSamples.goal_last_step_2)
    as (Hcalls & Hcounter & _).
  - reflexivity.
  - vm_compute. reflexivity.
  - split; [rewrite Hcalls; reflexivity | exact Hcounter].
Defined.

Lemma known_status_returned_witness :
  retrieve_return_status Sample.event Sample.fresh
  = (Return "SUCCESSFUL", Sample.fresh).
Proof.
  apply (known_status_returned Sample.event Sample.fresh
           MoreSamples.metadata_successful "SUCCESSFUL").
  - reflexivity.
  - vm_compute. reflexivity.
  - intros H. discriminate H.
  - by_evaluation.
Defined.

Lemma odd_status_undefined_silently_witness :
  retrieve_return_status MoreSamples.event_numeric_status Sample.fresh
  = (Return "UNDEFINED", Sample.fresh).
Proof.
  apply (odd_status_undefined_silently MoreSamples.event_numeric_status
           Sample.fresh MoreSamples.metadata_numeric_status (PNum 5)).
  - reflexivity.
  - vm_compute. reflexivity.
  - intros name H. discriminate H.
Defined.

Lemma retrieve_goal_not_a_mapping_witness :
  retrieve_goal (PDict (<["goal" := PNone]> ∅)) = Raise TypeError
  /\ retrieve_goal (PDict (<["goal" := PList []]> ∅))
     = Return MoreSamples.default_goal.
Proof.
  assert (Hnone : (<["goal" := PNone]> ∅ : gmap string pyval) !! "goal"
                  = Some PNone) by (vm_compute; reflexivity).
  assert (Hlist : (<["goal" := PList []]> ∅ : gmap string pyval) !! "goal"
                  = Some (PList [])) by (vm_compute; reflexivity).
  split.
  - apply (proj1 (retrieve_goal_not_a_mapping (<["goal" := PNone]> ∅) PNone
                    Hnone)).
    left. reflexivity.
  - apply (proj2 (retrieve_goal_not_a_mapping (<["goal" := PList []]> ∅)
                    (PList []) Hlist)).
    left. reflexivity.
Defined.

Lemma retrieve_action_list_ill_typed_witness :
  retrieve_action_list (Some MoreSamples.goal_none_entry) 0
  = Raise TypeError.
Proof.
  apply (proj1 (retrieve_action_list_ill_typed MoreSamples.goal_none_entry 0)
           [PNone; PList [PStr "Pass"]] PNone).
  - reflexivity.
  - reflexivity.
  - left. reflexivity.
Defined.

Lemma no_action_list_permits_everything_witness :
  retrieve_action_list (Some MoreSamples.default_goal) 4
  = Return ACTION_LIST_value.
Proof.
  apply (no_action_list_permits_everything ∅ MoreSamples.default_goal 4).
  - left. reflexivity.
  - reflexivity.
Defined.

End MoreSampleRuns.

Section BlindRuns.
#[local] Existing Instance MoreSamples.blind_collaborators.

Lemma step_fails_after_counting_witness :
  fst (step "MoveAhead" ∅ (MoreSamples.in_default_scene, Sample.quiet_world))
  = Raise KeyError
  /\ step_number (fst (snd (step "MoveAhead" ∅
                              (MoreSamples.in_default_scene,
                               Sample.quiet_world)))) = 1%nat
  /\ length (sim_calls (snd (snd (step "MoveAhead" ∅
                                    (MoreSamples.in_default_scene,
                                     Sample.quiet_world))))) = 1%nat.
Proof.
  destruct (step_fails_after_counting "MoveAhead" ∅
              MoreSamples.in_default_scene Sample.quiet_world KeyError)
    as (Hraise & Hcontroller & Hcalls).
  - reflexivity.
  - by_evaluation.
  - vm_compute. reflexivity.
  - right. exists MoreSamples.event_without_agent, ACTION_LIST_value.
    split; [reflexivity|]. split; [reflexivity|]. vm_compute. reflexivity.
  - split; [exact Hraise|]. split.
    + rewrite Hcontroller. reflexivity.
    + rewrite Hcalls. reflexivity.
Defined.

End BlindRuns.

Section ObjectRuns.
#[local] Existing Instance Objects.sample_collaborators.

Lemma object_uuid_and_color_witness :
  exists object,
    Objects.retrieve_object_output
      (Objects.sample_object "cup" (PList [PStr "metal"; PStr "glass"])
         true false) Objects.sample_colors = Return object
    /\ obj_uuid object = PStr "cup"
    /\ obj_color object
       = PDict (<["r" := PNum 1]> (<["g" := PNum 2]> (<["b" := PNum 3]> ∅))).
Proof.
  destruct (Objects.retrieve_object_output
              (Objects.sample_object "cup"
                 (PList [PStr "metal"; PStr "glass"]) true false)
              Objects.sample_colors) as [object | e] eqn:Hout;
    [|vm_compute in Hout; discriminate Hout].
  exists object. split; [reflexivity|].
  destruct (object_uuid_and_color _ _ _ Hout)
    as (object_id & rgb & r & g & b & Hid & Huuid & Hrgb & Hr & Hg & Hb
        & Hcolor).
  vm_compute in Hid. injection Hid as <-.
  vm_compute in Hrgb. injection Hrgb as <-.
  vm_compute in Hr, Hg, Hb.
  injection Hr as <-. injection Hg as <-. injection Hb as <-.
  split; [exact Huuid | exact Hcolor].
Defined.

Lemma object_materials_none_or_checked_witness :
  match Objects.retrieve_object_output
          (Objects.sample_object "ball" PNone false true)
          Objects.sample_colors with
  | Return object => obj_material_list object = PNone
  | Raise _ => False
  end.
Proof.
  destruct (Objects.retrieve_object_output
              (Objects.sample_object "ball" PNone false true)
              Objects.sample_colors) as [object | e] eqn:Hout.
  - apply (proj2 (object_materials_none_or_checked _ _ _ Hout)).
    vm_compute. reflexivity.
  - vm_compute in Hout. discriminate Hout.
Defined.

Lemma object_visible_and_distance_witness :
  match Objects.retrieve_object_output
          (Objects.sample_object "ball" PNone false true)
          Objects.sample_colors with
  | Return object => py_truthy (obj_visible object) = true
  | Raise _ => False
  end.
Proof.
  destruct (Objects.retrieve_object_output
              (Objects.sample_object "ball" PNone false true)
              Objects.sample_colors) as [object | e] eqn:Hout.
  - pose proof (proj1 (object_visible_and_distance _ _ _ Hout)) as Hvisible.
    vm_compute in Hout. injection Hout as <-.
    rewrite Hvisible. vm_compute. reflexivity.
  - vm_compute in Hout. discriminate Hout.
Defined.

Lemma object_list_sorted_by_uuid_witness :
  match Objects.retrieve_object_list Objects.sample_metadata
          Objects.sample_colors with
  | Return objects =>
      StronglySorted Objects.uuid_le objects
      /\ obj_uuid <$> objects = [PStr "ball"; PStr "cup"]
  | Raise _ => False
  end.
Proof.
  destruct (Objects.retrieve_object_list Objects.sample_metadata
              Objects.sample_colors) as [objects | e] eqn:Hlist.
  - split.
    + exact (object_list_sorted_by_uuid _ _ _ Hlist).
    + vm_compute in Hlist. injection Hlist as <-. reflexivity.
  - vm_compute in Hlist. discriminate Hlist.
Defined.

Lemma object_list_rearranges_outputs_witness :
  match Objects.retrieve_object_list Objects.sample_metadata
          Objects.sample_colors with
  | Return objects => length objects = 2%nat
  | Raise _ => False
  end.
Proof.
  destruct (Objects.retrieve_object_list Objects.sample_metadata
              Objects.sample_colors) as [objects | e] eqn:Hlist.
  - destruct (object_list_rearranges_outputs Objects.sample_metadata
                Objects.sample_colors
                [Objects.sample_object "cup"
                   (PList [PStr "metal"; PStr "glass"]) true false;
                 Objects.sample_object "ball" PNone false true]
                objects) as (outputs & _ & _ & Hlength).
    + vm_compute. reflexivity.
    + exact Hlist.
    + exact Hlength.
  - vm_compute in Hlist. discriminate Hlist.
Defined.

Lemma object_list_fails_with_first_failure_witness :
  Objects.retrieve_object_list
    (PDict (<["objects" :=
                PList [Objects.sample_object "cup" PNone true false;
                       Objects.sample_object "lamp" PNone true false;
                       PNone]]> ∅))
    Objects.sample_colors
  = Raise KeyError.
Proof.
  apply (object_list_fails_with_first_failure _ Objects.sample_colors
           [Objects.sample_object "cup" PNone true false] [PNone]
           (Objects.sample_object "lamp" PNone true false) KeyError).
  - vm_compute. reflexivity.
  - constructor; [vm_compute; reflexivity | constructor].
  - vm_compute. reflexivity.
Defined.

End ObjectRuns.

(** ** Debug files *)

Section DebugFiles.
Context {E : Collaborators}.

Lemma no_file_ret {A} (a : A) : writes_no_file (mret a).
Proof. intros s Hoff. split; [reflexivity | exact Hoff]. Qed.

Lemma no_file_bind {A B} (m : M A) (f : A -> M B) :
  writes_no_file m -> (forall a, writes_no_file (f a)) ->
  writes_no_file (m ≫= f).
Proof.
  intros Hm Hf s Hoff. unfold mbind, M_bind.
  destruct (Hm s Hoff) as (Hfiles & Hoff').
  destruct (m s) as [[a | e] s1]; cbn [fst snd] in *.
  - destruct (Hf a s1 Hoff') as (Hfiles' & Hoff'').
    split; [congruence | exact Hoff''].
  - split; assumption.
Qed.

(** After [self ← get_self] the methods that follow may count on
    debug files being off for [self]. *)
Lemma no_file_bind_self {B} (f : controller -> M B) :
  (forall self, debug_files_on self = false -> writes_no_file (f self)) ->
  writes_no_file (get_self ≫= f).
Proof. intros Hf s Hoff. exact (Hf (fst s) Hoff s Hoff). Qed.

Lemma no_file_lift {A} (o : outcome A) : writes_no_file (lift o).
Proof. intros s Hoff. split; [reflexivity | exact Hoff]. Qed.

Lemma no_file_get_world : writes_no_file get_world.
Proof. intros s Hoff. split; [reflexivity | exact Hoff]. Qed.

Lemma no_file_print (line : string) : writes_no_file (print line).
Proof. intros s Hoff. split; [reflexivity | exact Hoff]. Qed.

Lemma no_file_add_call (data : step_data) :
  writes_no_file (update_world (add_call data)).
Proof. intros s Hoff. split; [reflexivity | exact Hoff]. Qed.

Lemma no_file_add_draws (k : nat) :
  writes_no_file (update_world (add_draws k)).
Proof. intros s Hoff. split; [reflexivity | exact Hoff]. Qed.

Lemma no_file_set_head_tilt (v : pyval) :
  writes_no_file (update_self (set_head_tilt v)).
Proof. intros [[] w] Hoff. split; [reflexivity | exact Hoff]. Qed.

Lemma no_file_when (b : bool) (m : M unit) :
  b = false \/ writes_no_file m -> writes_no_file (when b m).
Proof.
  intros [-> | Hm]; [apply no_file_ret|].
  destruct b; [exact Hm | apply no_file_ret].
Qed.

Lemma no_file_print_lines (lines : list string) :
  writes_no_file
    (foldr (fun line rest => print ("    " ++ line) ;; rest) (mret tt) lines).
Proof.
  induction lines as [|line lines IH]; simpl.
  - apply no_file_ret.
  - apply no_file_bind; [apply no_file_print | intros _; exact IH].
Qed.

Lemma no_file_retrieve_return_status (ev : scene_event) :
  writes_no_file (retrieve_return_status ev).
Proof.
  intros s Hoff.
  destruct (retrieve_return_status_returns ev s) as (st & ls & ->).
  split; [reflexivity | exact Hoff].
Qed.

Ltac no_file_steps :=
  repeat first
    [ apply no_file_bind_self; intros ? ?
    | apply no_file_bind; [|intros ?]
    | apply no_file_ret
    | apply no_file_lift
    | apply no_file_get_world
    | apply no_file_print
    | apply no_file_add_call
    | apply no_file_add_draws
    | apply no_file_set_head_tilt
    | apply no_file_print_lines
    | apply no_file_retrieve_return_status
    | apply no_file_when; first [left; assumption | right]
    | match goal with
      | |- writes_no_file (let '(_, _) := ?p in _) => destruct p
      end ].

Lemma no_file_wrap_output (ev : scene_event) :
  writes_no_file (wrap_output ev).
Proof. unfold wrap_output, save_images. no_file_steps. Qed.

Lemma no_file_perform (action : string) (kwargs : gmap string pyval) :
  writes_no_file (perform action kwargs).
Proof.
  unfold perform, draw_noise, wrap_step, controller_step.
  repeat first
    [ apply no_file_wrap_output
    | progress no_file_steps ].
Qed.

(** When debug output to files is off, or no output folder is set,
    a call of [step] writes no file, whatever it does otherwise. *)
Lemma step_without_debug_writes_no_file (action : string)
    (kwargs : gmap string pyval) (c : controller) (w : world) :
  debug_files_on c = false ->
  files (snd (snd (step action kwargs (c, w)))) = files w.
Proof.
  intros Hoff. rewrite step_unfold.
  destruct (past_last_step c) as [[|]|e]; [reflexivity| |reflexivity].
  cbv zeta.
  assert (Hcounted :
            debug_files_on (set_step_number (step_number c + 1) c) = false)
    by (destruct c; exact Hoff).
  destruct (action_in _ ACTION_LIST);
    match goal with
    | |- context [perform ?a ?k (?c', ?w')] =>
        exact (proj1 (no_file_perform a k (c', w') Hcounted))
    end.
Qed.

End DebugFiles.

Section DebugFilesWritten.
Context {E : Collaborators}.

Lemma print_lines_returns (lines : list string) (s : controller * world) :
  exists w',
    foldr (fun line rest => print ("    " ++ line) ;; rest) (mret tt) lines s
    = (Return tt, (fst s, w'))
    /\ files w' = files (snd s).
Proof.
  revert s. induction lines as [|line lines IH]; intros [c w]; simpl.
  - exists w. split; reflexivity.
  - destruct (IH (c, add_line ("    " ++ line) w)) as (w' & Hrun & Hfiles).
    exists w'. split; [|exact Hfiles].
    unfold mbind, M_bind, print, update_world. cbn [fst snd].
    exact Hrun.
Qed.

(** With debug files on, a [wrap_output] that returns has written its
    five files, named after the counter, in this order. *)
Lemma wrap_output_files_written (ev : scene_event) (c c' : controller)
    (w w' : world) (out : MCS_Step_Output) :
  debug_files_on c = true ->
  wrap_output ev (c, w) = (Return out, (c', w')) ->
  files w' = (files w ++ output_files c)%list.
Proof.
  intros Hon. unfold wrap_output, save_images, output_files. intros H.
  apply bind_returns in H as (self & s1 & Hself & H).
  unfold get_self in Hself. injection Hself as <- <-. cbn [fst] in H.
  rewrite Hon in H.
  apply bind_returns in H as ([] & s2 & H2 & H).
  unfold when, write_file, update_world in H2. injection H2 as <-.
  apply bind_returns in H as ([[image depth] mask] & s3 & H3 & H).
  apply bind_returns in H3 as (self & s4 & Hself & H3).
  unfold get_self in Hself. injection Hself as <- <-.
  cbn [fst snd] in H3. rewrite Hon in H3.
  unfold when, write_file, update_world, mbind, M_bind, mret, M_ret in H3.
  cbn [fst snd] in H3. injection H3 as _ _ _ <-.
  apply bind_returns in H as (al & s5 & H5 & H).
  apply lift_returns in H5 as (_ & ->).
  apply bind_returns in H as (ht & s6 & H6 & H).
  apply lift_returns in H6 as (_ & ->).
  apply bind_returns in H as (ol & s7 & H7 & H).
  apply lift_returns in H7 as (_ & ->).
  apply bind_returns in H as (st & s8 & H8 & H).
  destruct (retrieve_return_status_returns ev
              (c, add_file (output_path c "object_mask_" ".png")
                    (add_file (output_path c "depth_mask_" ".png")
                       (add_file (output_path c "frame_image_" ".png")
                          (add_file (output_path c "ai2thor_output_" ".json")
                             w)))))
    as (st' & ls & Hstatus).
  rewrite Hstatus in H8. injection H8 as _ <-.
  apply bind_returns in H as ([] & s9 & H9 & H).
  unfold update_self in H9. injection H9 as <-. cbn [fst snd] in H.
  apply bind_returns in H as ([] & s10 & H10 & H).
  assert (Hprinted : files (snd s10)
                     = (files w ++ [output_path c "ai2thor_output_" ".json";
                                    output_path c "frame_image_" ".png";
                                    output_path c "depth_mask_" ".png";
                                    output_path c "object_mask_" ".png"])%list).
  { unfold when in H10. destruct (debug_to_terminal c).
    - apply bind_returns in H10 as ([] & sa & Ha & H10).
      unfold print, update_world in Ha. injection Ha as <-.
      apply bind_returns in H10 as ([] & sb & Hb & H10).
      unfold print, update_world in Hb. injection Hb as <-.
      match type of H10 with
      | foldr ?f ?z ?lines ?s = _ =>
          destruct (print_lines_returns lines s) as (wp & Hrun & Hfiles)
      end.
      rewrite Hrun in H10. injection H10 as <-.
      cbn [snd]. rewrite Hfiles. cbn [fst snd files add_line add_file].
      rewrite <- !app_assoc. reflexivity.
    - injection H10 as <-. cbn [snd files add_file].
      rewrite <- !app_assoc. reflexivity. }
  apply bind_returns in H as ([] & s11 & H11 & H).
  unfold when, write_file, update_world in H11. injection H11 as <-.
  injection H as _ _ <-. cbn [files add_file]. rewrite Hprinted.
  rewrite <- app_assoc. reflexivity.
Qed.

End DebugFilesWritten.

(** With debug files on, a call of [step] that returns an output has
    written six files, all named after the incremented counter: the
    input of the simulator, then its output, the three images and the
    step output. *)
Lemma step_writes_debug_files {E : Collaborators} (action : string)
    (kwargs : gmap string pyval) (c c' : controller) (w w' : world)
    (out : MCS_Step_Output) :
  debug_files_on c = true ->
  step action kwargs (c, w) = (Return (Some out), (c', w')) ->
  let counted := set_step_number (step_number c + 1) c in
  files w'
  = (files w ++ output_path counted "ai2thor_input_" ".json"
             :: output_files counted)%list.
Proof.
  intros Hon Hstep counted.
  assert (Hcounted : debug_files_on counted = true)
    by (subst counted; destruct c; exact Hon).
  rewrite step_unfold in Hstep.
  destruct (past_last_step c) as [[|]|e]; try discriminate Hstep.
  cbv zeta in Hstep. fold counted in Hstep.
  assert (Hperform : exists a k w0,
            files w0 = files w
            /\ perform a k (counted, w0) = (Return (Some out), (c', w'))).
  { destruct (action_in _ ACTION_LIST); eexists _, _, _;
      (split; [|exact Hstep]); reflexivity. }
  clear Hstep. destruct Hperform as (a & k & w0 & Hw0 & Hperform).
  rewrite perform_unfold in Hperform. cbv zeta in Hperform.
  rewrite Hcounted in Hperform.
  destruct (bind_keywords k) as [[]|e]; [|discriminate Hperform].
  destruct (ai2thor_step _ _) as [ev|e]; [|discriminate Hperform].
  destruct (wrap_output ev _) as [[out'|e] [c1 w1]] eqn:Hwrap;
    [|discriminate Hperform].
  injection Hperform as -> -> ->.
  rewrite (wrap_output_files_written _ _ _ _ _ _ Hcounted Hwrap).
  cbn [files add_call add_file].
  replace (files (if enable_noise counted
                  then add_draws 3
                         (if debug_to_terminal counted
                          then add_line ("ACTION: " ++ a)
                                 (add_line
                                    ("STEP: " ++ pretty (step_number counted))
                                    (add_line "===============================================================================" w0))
                          else w0)
                  else if debug_to_terminal counted
                       then add_line ("ACTION: " ++ a)
                              (add_line
                                 ("STEP: " ++ pretty (step_number counted))
                                 (add_line "===============================================================================" w0))
                       else w0))
    with (files w0)
    by (destruct (enable_noise counted), (debug_to_terminal counted);
        reflexivity).
  rewrite Hw0, <- app_assoc. reflexivity.
Qed.

(** ** The debug files of a step *)

(** Which files a call of [step] writes depends on the debug flag
    and the output folder alone.  Without both, the call writes no
    file, whatever its outcome.  With both, a call that returns an
    output has written six files, in this order and all numbered with
    the incremented counter: the input of the simulator, its output,
    the frame, the depth mask, the object mask and the step output. *)
Theorem step_debug_files {E : Collaborators} (action : string)
    (kwargs : gmap string pyval) (c : controller) (w : world) :
  (debug_files_on c = false ->
   files (snd (snd (step action kwargs (c, w)))) = files w)
  /\ (debug_files_on c = true ->
      forall out c' w',
        step action kwargs (c, w) = (Return (Some out), (c', w')) ->
        let counted := set_step_number (step_number c + 1) c in
        files w'
        = (files w
           ++ [output_path counted "ai2thor_input_" ".json";
               output_path counted "ai2thor_output_" ".json";
               output_path counted "frame_image_" ".png";
               output_path counted "depth_mask_" ".png";
               output_path counted "object_mask_" ".png";
               output_path counted "mcs_output_" ".json"])%list).
Proof.
  split.
  - apply step_without_debug_writes_no_file.
  - intros Hon out c' w' Hstep.
    exact (step_writes_debug_files action kwargs c c' w w' out Hon Hstep).
Qed.

Section DebugRuns.

#[local] Existing Instance Sample.collaborators.

Lemma step_debug_files_witness :
  files (snd (snd (step "MoveAhead" ∅
                     (fst Sample.started, snd Sample.started))))
  = files (snd Sample.started)
  /\ match step "MoveAhead" ∅
             (fst MoreSamples.debug_scene, snd MoreSamples.debug_scene) with
     | (Return (Some _), (_, w')) =>
         files w'
         = (files (snd MoreSamples.debug_scene)
            ++ ["./scene/ai2thor_input_1.json";
                "./scene/ai2thor_output_1.json";
                "./scene/frame_image_1.png";
                "./scene/depth_mask_1.png";
                "./scene/object_mask_1.png";
                "./scene/mcs_output_1.json"])%list
     | _ => False
     end.
Proof.
  split.
  - apply (proj1 (step_debug_files "MoveAhead" ∅ (fst Sample.started)
                    (snd Sample.started))).
    vm_compute. reflexivity.
  - destruct (step "MoveAhead" ∅
                (fst MoreSamples.debug_scene, snd MoreSamples.debug_scene))
      as [[[step_output|] | e] [c' w']] eqn:Hstep.
    + assert (Hon : debug_files_on (fst MoreSamples.debug_scene) = true)
        by (vm_compute; reflexivity).
      exact (proj2 (step_debug_files "MoveAhead" ∅
                      (fst MoreSamples.debug_scene)
                      (snd MoreSamples.debug_scene))
               Hon step_output c' w' Hstep).
    + vm_compute in Hstep. discriminate Hstep.
    + vm_compute in Hstep. discriminate Hstep.
Defined.

End DebugRuns.
